(** * Donizo material scraper: normalisation, deduplication, persistence

    A shallow embedding of the data-processing core of the scraper
    ([utils/data_processor.py]), of the step of the orchestrator that
    structures a scraper's output ([scraper.py]), of the session writer
    ([utils/logger.py]) and of the category endpoint ([api/server.py]),
    with the properties the specification states about them.

    Conventions of the embedding.
    - A Python [str] is a Rocq [string] holding its UTF-8 bytes, so that
      [s.encode()] is the identity on the bytes.  The regular-expression
      class [\d] is the ASCII digits, white space is the ASCII white
      space and case mapping acts on the ASCII letters; the bytes of a
      multi-byte character are left alone by all three, where Python
      would also recognise the digits, spaces and cased letters beyond
      ASCII.
    - A scalar entry of a record is [PyNone] or a [PyStr]; the entries
      that hold a mapping or a sequence are typed components of the
      record.
    - Wall-clock reads ([datetime.utcnow], [datetime.now]) are explicit
      arguments.
    - Library calls whose behaviour varies with the Python version
      ([urllib.parse.urlparse], the [json] module) are interfaces; the
      properties hold for every implementation of them, and a small
      instance of each serves the worked examples. *)

From Stdlib Require Import ZArith Ascii String DecimalString.
From stdpp Require Import gmap strings list.

Local Open Scope Z_scope.

(** ** Python string primitives *)

Module Str.

Definition is_digit (c : ascii) : bool :=
  match c with
  | "0" | "1" | "2" | "3" | "4" | "5" | "6" | "7" | "8" | "9" => true
  | _ => false
  end%char.

Fixpoint filter (f : ascii → bool) (s : string) : string :=
  match s with
  | EmptyString => EmptyString
  | String c s' => if f c then String c (filter f s') else filter f s'
  end.

(** [c in s] for a one-character [c]. *)
Fixpoint mem (c : ascii) (s : string) : bool :=
  match s with
  | EmptyString => false
  | String d s' => Ascii.eqb d c || mem c s'
  end.

(** [s.rfind(c)]: the highest index of [c] in [s], [-1] when absent. *)
Fixpoint rfind (c : ascii) (s : string) : Z :=
  match s with
  | EmptyString => -1
  | String d s' =>
      let r := rfind c s' in
      if 0 <=? r then r + 1
      else if Ascii.eqb d c then 0 else -1
  end.

(** [s.replace(old, new)] for a one-character [old]. *)
Fixpoint replace (old : ascii) (new : string) (s : string) : string :=
  match s with
  | EmptyString => EmptyString
  | String d s' =>
      if Ascii.eqb d old then new +:+ replace old new s'
      else String d (replace old new s')
  end.

(** [s.split(sep)] for a one-character [sep]. *)
Fixpoint split (sep : ascii) (s : string) : list string :=
  match s with
  | EmptyString => [EmptyString]
  | String d s' =>
      if Ascii.eqb d sep then EmptyString :: split sep s'
      else match split sep s' with
           | h :: t => String d h :: t
           | [] => [String d EmptyString]
           end
  end.

Fixpoint count (c : ascii) (s : string) : nat :=
  match s with
  | EmptyString => O
  | String d s' => (if Ascii.eqb d c then 1 else 0)%nat + count c s'
  end.

(** The text to the right of the last [c] (all of [s] when [c] is absent). *)
Fixpoint after_last (c : ascii) (s : string) : string :=
  match s with
  | EmptyString => EmptyString
  | String d s' =>
      if mem c s' then after_last c s'
      else if Ascii.eqb d c then s' else String d s'
  end.

Fixpoint Forall (P : ascii → Prop) (s : string) : Prop :=
  match s with
  | EmptyString => True
  | String c s' => P c ∧ Forall P s'
  end.

Fixpoint prefix (p s : string) : bool :=
  match p, s with
  | EmptyString, _ => true
  | String a p', String b s' => Ascii.eqb a b && prefix p' s'
  | String _ _, EmptyString => false
  end.

(** [sub in s]. *)
Fixpoint contains (sub s : string) : bool :=
  prefix sub s ||
  match s with
  | EmptyString => false
  | String _ s' => contains sub s'
  end.

(** [s[:n]] and [s[n:]] for [n >= 0]. *)
Fixpoint take (n : nat) (s : string) : string :=
  match n, s with
  | S n', String c s' => String c (take n' s')
  | _, _ => EmptyString
  end.

Fixpoint drop (n : nat) (s : string) : string :=
  match n, s with
  | S n', String _ s' => drop n' s'
  | _, _ => s
  end.

Definition is_upper (c : ascii) : bool :=
  (65 <=? N_of_ascii c)%N && (N_of_ascii c <=? 90)%N.

Definition is_lower (c : ascii) : bool :=
  (97 <=? N_of_ascii c)%N && (N_of_ascii c <=? 122)%N.

Definition is_cased (c : ascii) : bool := is_upper c || is_lower c.

Definition lower_char (c : ascii) : ascii :=
  if is_upper c then ascii_of_N (N_of_ascii c + 32) else c.

Definition upper_char (c : ascii) : ascii :=
  if is_lower c then ascii_of_N (N_of_ascii c - 32) else c.

(** [s.lower()]. *)
Fixpoint lower (s : string) : string :=
  match s with
  | EmptyString => EmptyString
  | String c s' => String (lower_char c) (lower s')
  end.

(** [s.title()]: a cased character is upper-cased when the character
    before it is not cased, and lower-cased otherwise. *)
Fixpoint title_from (previous_is_cased : bool) (s : string) : string :=
  match s with
  | EmptyString => EmptyString
  | String c s' =>
      if is_cased c then
        String (if previous_is_cased then lower_char c else upper_char c)
               (title_from true s')
      else String c (title_from false s')
  end.

Definition title (s : string) : string := title_from false s.

(** [str.isspace] on one character: tab to carriage return, the four
    separators 28 to 31, and the space. *)
Definition is_space (c : ascii) : bool :=
  let n := N_of_ascii c in
  ((9 <=? n)%N && (n <=? 13)%N) || ((28 <=? n)%N && (n <=? 32)%N).

Fixpoint lstrip (s : string) : string :=
  match s with
  | EmptyString => EmptyString
  | String c s' => if is_space c then lstrip s' else s
  end.

Fixpoint rstrip (s : string) : string :=
  match s with
  | EmptyString => EmptyString
  | String c s' =>
      match rstrip s' with
      | EmptyString => if is_space c then EmptyString else String c EmptyString
      | r => String c r
      end
  end.

(** [s.strip()]. *)
Definition strip (s : string) : string := rstrip (lstrip s).

(** The longest run of digits at the front of [s], and what follows it. *)
Fixpoint span_digits (s : string) : string * string :=
  match s with
  | EmptyString => (EmptyString, EmptyString)
  | String c s' =>
      if is_digit c then
        let '(ds, rest) := span_digits s' in (String c ds, rest)
      else (EmptyString, s)
  end.

(** [s.find(c)]: the lowest index of [c] in [s], [None] when absent. *)
Fixpoint find (c : ascii) (s : string) : option nat :=
  match s with
  | EmptyString => None
  | String d s' => if Ascii.eqb d c then Some O else S <$> find c s'
  end.

Fixpoint forallb (f : ascii → bool) (s : string) : bool :=
  match s with
  | EmptyString => true
  | String c s' => f c && forallb f s'
  end.

(** The part of [s] before the first character satisfying [stop]. *)
Fixpoint take_until (stop : ascii → bool) (s : string) : string :=
  match s with
  | EmptyString => EmptyString
  | String c s' => if stop c then EmptyString else String c (take_until stop s')
  end.

(** [''.join(chunks)]. *)
Definition concat (chunks : list string) : string :=
  foldr String.append EmptyString chunks.

End Str.

(** ** Values and records *)

(** A scalar field: Python's [None] or a [str]. *)
Inductive pyval : Type :=
| PyNone
| PyStr (s : string).

Global Instance pyval_eq_dec : EqDecision pyval.
Proof. solve_decision. Defined.

(** Truthiness, [bool(v)]. *)
Definition truthy (v : pyval) : bool :=
  match v with
  | PyNone => false
  | PyStr EmptyString => false
  | PyStr _ => true
  end.

(** [str(v)], also what an f-string renders. *)
Definition py_str (v : pyval) : string :=
  match v with
  | PyNone => "None"
  | PyStr s => s
  end.

(** ** [DataProcessor.normalize_price] *)

(** [re.sub(r'[^\d.,]', '', s)]. *)
Definition is_price_char (c : ascii) : bool :=
  Str.is_digit c || Ascii.eqb c "."%char || Ascii.eqb c ","%char.

Definition strip_non_price (s : string) : string := Str.filter is_price_char s.

Definition separate_decimal (clean_price : string) : string :=
  if Str.mem "," clean_price && Str.mem "." clean_price then
    if Str.rfind "," clean_price >? Str.rfind "." clean_price then
      Str.replace "," "." (Str.replace "." "" clean_price)
    else
      Str.replace "," "" clean_price
  else if Str.mem "," clean_price then
    let parts := Str.split "," clean_price in
    (* [and] short-circuits, so [parts[1]] is read only when it exists *)
    if (length parts =? 2)%nat && (String.length (parts !!! 1%nat) <=? 2)%nat then
      Str.replace "," "." clean_price
    else
      Str.replace "," "" clean_price
  else clean_price.

Definition normalize_price (price : pyval) (currency : pyval) : gmap string pyval :=
  if negb (truthy price) then
    {[ "price" := PyStr ""; "price_currency" := currency ]}
  else
    let clean_price := strip_non_price (py_str price) in
    {[ "price" := PyStr (separate_decimal clean_price);
       "price_currency" := currency ]}.

(** The [price] entry of the returned mapping. *)
Definition price_of (d : gmap string pyval) : string :=
  match d !! "price" with
  | Some v => py_str v
  | None => ""
  end.

(** ** MD5 ([hashlib.md5], RFC 1321) on 32-bit words held in [Z] *)

Module MD5.

Definition wrap (x : Z) : Z := x mod 2 ^ 32.

Definition add32 (x y : Z) : Z := wrap (x + y).

Definition not32 (x : Z) : Z := Z.lxor x 0xffffffff.

Definition rotl32 (x : Z) (n : Z) : Z :=
  Z.lor (wrap (Z.shiftl x n)) (Z.shiftr x (32 - n)).

Definition shifts : list Z :=
  [7; 12; 17; 22; 7; 12; 17; 22; 7; 12; 17; 22; 7; 12; 17; 22;
   5; 9; 14; 20; 5; 9; 14; 20; 5; 9; 14; 20; 5; 9; 14; 20;
   4; 11; 16; 23; 4; 11; 16; 23; 4; 11; 16; 23; 4; 11; 16; 23;
   6; 10; 15; 21; 6; 10; 15; 21; 6; 10; 15; 21; 6; 10; 15; 21].

Definition sines : list Z :=
  [0xd76aa478; 0xe8c7b756; 0x242070db; 0xc1bdceee;
   0xf57c0faf; 0x4787c62a; 0xa8304613; 0xfd469501;
   0x698098d8; 0x8b44f7af; 0xffff5bb1; 0x895cd7be;
   0x6b901122; 0xfd987193; 0xa679438e; 0x49b40821;
   0xf61e2562; 0xc040b340; 0x265e5a51; 0xe9b6c7aa;
   0xd62f105d; 0x02441453; 0xd8a1e681; 0xe7d3fbc8;
   0x21e1cde6; 0xc33707d6; 0xf4d50d87; 0x455a14ed;
   0xa9e3e905; 0xfcefa3f8; 0x676f02d9; 0x8d2a4c8a;
   0xfffa3942; 0x8771f681; 0x6d9d6122; 0xfde5380c;
   0xa4beea44; 0x4bdecfa9; 0xf6bb4b60; 0xbebfbc70;
   0x289b7ec6; 0xeaa127fa; 0xd4ef3085; 0x04881d05;
   0xd9d4d039; 0xe6db99e5; 0x1fa27cf8; 0xc4ac5665;
   0xf4292244; 0x432aff97; 0xab9423a7; 0xfc93a039;
   0x655b59c3; 0x8f0ccc92; 0xffeff47d; 0x85845dd1;
   0x6fa87e4f; 0xfe2ce6e0; 0xa3014314; 0x4e0811a1;
   0xf7537e82; 0xbd3af235; 0x2ad7d2bb; 0xeb86d391].

Record state : Type := State { sa : Z; sb : Z; sc : Z; sd : Z }.

Definition init : state :=
  State 0x67452301 0xefcdab89 0x98badcfe 0x10325476.

(** One of the 64 operations of a block: [i] selects the round function,
    the message word, the additive constant and the rotation. *)
Definition step (m : list Z) (st : state) (i : nat) : state :=
  let '(State a b c d) := st in
  let iz := Z.of_nat i in
  let '(f, g) :=
    if iz <? 16 then (Z.lor (Z.land b c) (Z.land (not32 b) d), iz)
    else if iz <? 32 then (Z.lor (Z.land d b) (Z.land (not32 d) c), (5 * iz + 1) mod 16)
    else if iz <? 48 then (Z.lxor (Z.lxor b c) d, (3 * iz + 5) mod 16)
    else (Z.lxor c (Z.lor b (not32 d)), (7 * iz) mod 16) in
  let f' := add32 (add32 (add32 f a) (sines !!! i)) (m !!! Z.to_nat g) in
  State d (add32 b (rotl32 f' (shifts !!! i))) b c.

(** Four bytes, least significant first, as one word. *)
Definition word_le (bs : list Z) : Z :=
  foldr (λ b acc, b + 256 * acc) 0 bs.

Definition words_of_block (block : list Z) : list Z :=
  (λ k, word_le (take 4 (drop (4 * k) block))) <$> seq 0 16.

Definition compress (st : state) (block : list Z) : state :=
  let m := words_of_block block in
  let '(State a b c d) := foldl (step m) st (seq 0 64) in
  State (add32 (sa st) a) (add32 (sb st) b) (add32 (sc st) c) (add32 (sd st) d).

Definition bytes_le (width : nat) (x : Z) : list Z :=
  (λ k, (Z.shiftr x (8 * Z.of_nat k)) mod 256) <$> seq 0 width.

(** The message, one [0x80], zeros up to 56 modulo 64, and the bit
    length on eight bytes. *)
Definition pad (msg : list Z) : list Z :=
  let n := Z.of_nat (length msg) in
  msg ++ [0x80] ++ replicate (Z.to_nat ((55 - n) mod 64)) 0
      ++ bytes_le 8 ((8 * n) mod 2 ^ 64).

Definition digest (msg : list Z) : list Z :=
  let padded := pad msg in
  let blocks := (λ k, take 64 (drop (64 * k) padded)) <$> seq 0 (length padded / 64) in
  let '(State a b c d) := foldl compress init blocks in
  bytes_le 4 a ++ bytes_le 4 b ++ bytes_le 4 c ++ bytes_le 4 d.

Definition hex_digit (x : Z) : ascii :=
  if x <? 10 then ascii_of_N (Z.to_N (48 + x)) else ascii_of_N (Z.to_N (87 + x)).

Definition hex_of_bytes (bs : list Z) : string :=
  foldr (λ b acc, String (hex_digit (b / 16)) (String (hex_digit (b mod 16)) acc))
        EmptyString bs.

Definition bytes_of_string (s : string) : list Z :=
  (λ c, Z.of_N (N_of_ascii c)) <$> list_ascii_of_string s.

(** [hashlib.md5(s.encode()).hexdigest()]. *)
Definition hexdigest (s : string) : string :=
  hex_of_bytes (digest (bytes_of_string s)).

End MD5.

(** ** Exceptions *)

(** The outcome of a call that may raise: the value returned, or the
    message [str(e)] of the exception. *)
Inductive result (A : Type) : Type :=
| Ok (a : A)
| Raise (e : string).
Global Arguments Ok {A} a.
Global Arguments Raise {A} e.

(** ** Records *)

(** The value under [image_urls] or [image_url]: one string or a list. *)
Inductive image_value : Type :=
| ImgStr (s : string)
| ImgList (l : list string).

(** A raw record as a scraper hands it over.  A key that is absent from
    [raw_fields] is absent from the Python mapping; an absent
    [measurement] is the empty mapping and an absent image key is the
    empty list, which is what the processor's defaults make of them. *)
Record raw_record : Type := RawRecord {
  raw_fields : gmap string pyval;
  raw_measurement : gmap string pyval;
  raw_image_urls : image_value;
  raw_image_url : image_value
}.

(** [product_data.get(key, default)] on a scalar key. *)
Definition rget (r : raw_record) (key : string) (dflt : pyval) : pyval :=
  default dflt (raw_fields r !! key).

(** The canonical product: its scalar entries, and the three entries
    that hold a mapping or a list. *)
Record product : Type := Product {
  fields : gmap string pyval;
  measurement : gmap string string;
  image_urls : list string;
  metadata : gmap string string
}.

(** [product.get(key)] and [product.get(key, default)] on a scalar key. *)
Definition pget (p : product) (key : string) : option pyval := fields p !! key.

Definition pget_or (p : product) (key : string) (dflt : pyval) : pyval :=
  default dflt (pget p key).

(** The mappings that are read by key without regard to what else they
    hold: [dict_get d key] is [d.get(key)], the scalar under [key] or
    nothing when [d] has no such key. *)
Class PyDict (A : Type) : Type := dict_get : A → string → option pyval.

Global Instance product_dict : PyDict product := pget.

(** The processor's configuration, as read by [DataProcessor.__init__]
    and by [process_products_batch]. *)
Record DataProcessor : Type := {
  price_currency : pyval;
  measurement_unit : string;
  cfg_remove_duplicates : bool
}.

(** [DataProcessor()] with no configuration. *)
Definition default_processor : DataProcessor :=
  {| price_currency := PyStr "EUR"; measurement_unit := "cm";
     cfg_remove_duplicates := true |}.

(** ** [DataProcessor.generate_product_id] *)

Definition generate_product_id (supplier : string) (product_url sku_id : pyval)
  : result string :=
  if truthy sku_id then Ok (supplier +:+ "_" +:+ py_str sku_id)
  else
    match product_url with
    | PyStr url => Ok (supplier +:+ "_" +:+ Str.take 8 (MD5.hexdigest url))
    | PyNone => Raise "'NoneType' object has no attribute 'encode'"
    end.

(** ** [DataProcessor.normalize_measurement] *)

(** [re.search(r'(\d+(?:\.\d+)?)', s)]: the first digit run, with a
    fraction when a dot and a digit follow. *)
Fixpoint search_number (s : string) : option string :=
  match s with
  | EmptyString => None
  | String c s' =>
      if Str.is_digit c then
        let '(ds, rest) := Str.span_digits s in
        match rest with
        | String "."%char rest' =>
            match Str.span_digits rest' with
            | (EmptyString, _) => Some ds
            | (fs, _) => Some (ds +:+ "." +:+ fs)
            end
        | _ => Some ds
        end
      else search_number s'
  end.

Definition normalize_measurement (dp : DataProcessor) (m : gmap string pyval)
  : gmap string string :=
  let normalized :=
    omap (λ value, if truthy value then search_number (py_str value) else None) m in
  if decide (normalized = ∅) then ∅
  else <["unit" := measurement_unit dp]> normalized.

(** ** [DataProcessor.validate_url] *)

(** [urllib.parse.urlparse]: the scheme and the network location of its
    result, or [None] when it raises. *)
Class UrlLib : Type := urlparse : string → option (string * string).

Definition nonempty (s : string) : bool :=
  match s with EmptyString => false | _ => true end.

Definition validate_url `{urllib : UrlLib} (url : string) : bool :=
  if negb (nonempty url) then false
  else
    match urlparse url with
    | Some (scheme, netloc) => nonempty scheme && nonempty netloc
    | None => false
    end.

(** ** [DataProcessor.normalize_brand] *)

(** [re.sub(r'^(marque|brand):\s*', '', brand, flags=re.IGNORECASE)]. *)
Definition strip_label (brand : string) : string :=
  if Str.prefix "marque:" (Str.lower brand) then Str.lstrip (Str.drop 7 brand)
  else if Str.prefix "brand:" (Str.lower brand) then Str.lstrip (Str.drop 6 brand)
  else brand.

Definition normalize_brand (brand : pyval) : string :=
  if negb (truthy brand) then ""
  else
    let brand := Str.strip (strip_label (py_str brand)) in
    if nonempty brand then Str.title brand else brand.

(** ** [DataProcessor.determine_availability] *)

Definition availability_indicators : list (string * list string) :=
  [ ("in_stock", ["en stock"; "disponible"; "available"; "in stock"]);
    ("out_of_stock", ["rupture"; "indisponible"; "out of stock"; "épuisé"]);
    ("limited", ["limité"; "limited"; "dernières pièces"]) ].

Definition text_to_check (product_data : raw_record) : string :=
  Str.lower (py_str (rget product_data "product_name" (PyStr "")) +:+ " "
             +:+ py_str (rget product_data "description" (PyStr ""))).

Fixpoint first_status (table : list (string * list string)) (text : string) : string :=
  match table with
  | [] => "unknown"
  | (status, indicators) :: rest =>
      if existsb (λ indicator, Str.contains indicator text) indicators then status
      else first_status rest text
  end.

Definition determine_availability (product_data : raw_record) : string :=
  first_status availability_indicators (text_to_check product_data).

(** ** [DataProcessor.process_product] *)

Definition image_truthy (v : image_value) : bool :=
  match v with
  | ImgStr s => nonempty s
  | ImgList l => match l with [] => false | _ => true end
  end.

(** [image_urls or image_url], a lone string wrapped in a list. *)
Definition image_candidates (product_data : raw_record) : list string :=
  let chosen :=
    if image_truthy (raw_image_urls product_data) then raw_image_urls product_data
    else raw_image_url product_data in
  match chosen with
  | ImgStr s => [s]
  | ImgList l => l
  end.

(** The loop that keeps the valid image URLs not seen before. *)
Fixpoint collect_images `{urllib : UrlLib} (urls : list string)
    (valid_images : list string) (seen_images : gset string) : list string :=
  match urls with
  | [] => valid_images
  | img_url :: rest =>
      if nonempty img_url && validate_url img_url
         && negb (bool_decide (img_url ∈ seen_images))
      then collect_images rest (valid_images ++ [img_url]) ({[img_url]} ∪ seen_images)
      else collect_images rest valid_images seen_images
  end.

(** [now] is [datetime.utcnow().isoformat()] at the time of the call. *)
Definition process_product `{urllib : UrlLib} (dp : DataProcessor)
    (product_data : raw_record) (supplier : string) (now : string)
  : result product :=
  match generate_product_id supplier
          (rget product_data "product_url" (PyStr ""))
          (rget product_data "sku_id" (PyStr "")) with
  | Raise e => Raise e
  | Ok id =>
      let timestamp := now +:+ "Z" in
      let processed : gmap string pyval :=
        {[ "id" := PyStr id;
           "supplier" := PyStr supplier;
           "category" := rget product_data "category" (PyStr "");
           "product_name" := rget product_data "product_name" (PyStr "");
           "brand" := PyStr (normalize_brand (rget product_data "brand" (PyStr "")));
           "product_url" := rget product_data "product_url" (PyStr "");
           "sku_id" := rget product_data "sku_id" (PyStr "");
           "description" := rget product_data "description" (PyStr "");
           "rating" := rget product_data "rating" (PyStr "");
           "timestamp" := PyStr timestamp ]} in
      let currency := rget product_data "price_currency" (price_currency dp) in
      let price_data := normalize_price (rget product_data "price" (PyStr "")) currency in
      (* [processed.update(price_data)] *)
      let processed := price_data ∪ processed in
      let processed :=
        if truthy (rget product_data "original_price" PyNone) then
          <["original_price" :=
              PyStr (price_of (normalize_price
                                 (rget product_data "original_price" PyNone) currency))]>
            processed
        else processed in
      let processed :=
        if truthy (rget product_data "discount_rate" PyNone) then
          <["discount_rate" := rget product_data "discount_rate" PyNone]> processed
        else processed in
      let processed :=
        <["availability" := PyStr (determine_availability product_data)]> processed in
      Ok {| fields := processed;
            measurement := normalize_measurement dp (raw_measurement product_data);
            image_urls := collect_images (image_candidates product_data) [] ∅;
            metadata := {[ "scraped_at" := timestamp;
                           "supplier_id" := supplier +:+ "_" +:+ id;
                           "data_version" := "1.0" ]} |}
  end.

(** ** [DataProcessor.remove_duplicates] *)

(** The key built by the f-string [{product_url}_{product_name}], each
    read with [product.get(key, '')]. *)
Definition product_key {A} `{PyDict A} (p : A) : string :=
  py_str (default (PyStr "") (dict_get p "product_url")) +:+ "_"
  +:+ py_str (default (PyStr "") (dict_get p "product_name")).

Fixpoint dedupe_loop {A} `{PyDict A} (products : list A)
    (seen_products : gset string) (unique_products : list A) : list A :=
  match products with
  | [] => unique_products
  | p :: rest =>
      if bool_decide (product_key p ∈ seen_products)
      then dedupe_loop rest seen_products unique_products
      else dedupe_loop rest ({[product_key p]} ∪ seen_products) (unique_products ++ [p])
  end.

Definition remove_duplicates {A} `{PyDict A} (products : list A) : list A :=
  dedupe_loop products ∅ [].

(** ** [DataProcessor.validate_product] *)

Definition required_fields : list string := ["product_name"; "product_url"; "price"].

Definition validate_product (p : product) : bool :=
  forallb (λ field, match pget p field with
                    | Some v => truthy v
                    | None => false
                    end) required_fields.

(** ** [DataProcessor.process_products_batch] *)

(** One entry of [stats['errors']]; [err_product] is absent from the
    entries that concern a whole supplier. *)
Record error_entry : Type := ErrorEntry {
  err_supplier : string;
  err_product : option pyval;
  err_error : string
}.

(** What a run can observe of its surroundings: the lines printed so
    far, the messages handed to the main logger, and the error list of
    the orchestrator's statistics. *)
Record world : Type := World {
  stdout : list string;
  run_log : list string;
  run_errors : list error_entry
}.

Definition print (line : string) (w : world) : world :=
  {| stdout := stdout w ++ [line]; run_log := run_log w; run_errors := run_errors w |}.

(** The [for] loop of the batch; [i] is the position of the next record
    and [now i] the clock reading when it is processed. *)
Fixpoint batch_loop `{urllib : UrlLib} (dp : DataProcessor) (now : nat → string)
    (supplier : string) (i : nat) (products : list raw_record)
    (processed_products : list product) (w : world) : list product * world :=
  match products with
  | [] => (processed_products, w)
  | product_data :: rest =>
      match process_product dp product_data supplier (now i) with
      | Ok processed_product =>
          if validate_product processed_product
          then batch_loop dp now supplier (S i) rest
                          (processed_products ++ [processed_product]) w
          else batch_loop dp now supplier (S i) rest processed_products w
      | Raise e =>
          batch_loop dp now supplier (S i) rest processed_products
            (print ("Error processing product "
                    +:+ py_str (rget product_data "product_name" (PyStr "Unknown"))
                    +:+ ": " +:+ e) w)
      end
  end.

Definition process_products_batch `{urllib : UrlLib} (dp : DataProcessor) (now : nat → string)
    (products : list raw_record) (supplier : string) (w : world)
  : list product * world :=
  let '(processed_products, w') := batch_loop dp now supplier 0 products [] w in
  if cfg_remove_duplicates dp then (remove_duplicates processed_products, w')
  else (processed_products, w').

(** ** [DonizoMaterialScraper._process_scraper_output] *)

Definition log (message : string) (w : world) : world :=
  {| stdout := stdout w; run_log := run_log w ++ [message]; run_errors := run_errors w |}.

(** [main_logger.log_error(e, context)] with a context. *)
Definition log_error (e context : string) (w : world) : world :=
  log ("❌ Error in " +:+ context +:+ ": " +:+ e) w.

Definition log_warning (message : string) (w : world) : world :=
  log ("⚠️  " +:+ message) w.

Definition log_success (message : string) (w : world) : world :=
  log ("✅ " +:+ message) w.

(** [stats['errors'].append(entry)]. *)
Definition record_error (entry : error_entry) (w : world) : world :=
  {| stdout := stdout w; run_log := run_log w; run_errors := run_errors w ++ [entry] |}.

(** The structured output of the orchestrator: its scalar entries, the
    nested [price] mapping, and the entries copied from the product and
    from the raw record. *)
Record structured_product : Type := StructuredProduct {
  s_fields : gmap string pyval;
  s_price : gmap string pyval;
  s_measurements : gmap string string;
  s_image_url : list string;
  s_raw_data : raw_record
}.

Global Instance structured_dict : PyDict structured_product :=
  λ s key, s_fields s !! key.

(** The body of the inner [try]: process the record, then build the
    structured mapping; [processed_product['id']] raises [KeyError] on a
    product without an id.  The defaults of the other reads are never
    used, since [process_product] sets every key they name. *)
Definition structure_product `{urllib : UrlLib} (dp : DataProcessor)
    (product : raw_record) (supplier_name : string) (now : string)
  : result structured_product :=
  match process_product dp product supplier_name now with
  | Raise e => Raise e
  | Ok processed_product =>
      match pget processed_product "id" with
      | None => Raise "'id'"
      | Some id =>
          Ok {| s_fields :=
                  {[ "id" := id;
                     "name" := pget_or processed_product "product_name" (PyStr "");
                     "category" := pget_or processed_product "category" (PyStr "");
                     "supplier" := PyStr (Str.title supplier_name);
                     "url" := pget_or processed_product "product_url" (PyStr "");
                     "brand" := pget_or processed_product "brand" (PyStr "");
                     "availability" :=
                       pget_or processed_product "availability" (PyStr "unknown");
                     "scraped_at" := pget_or processed_product "timestamp" (PyStr now) ]};
                s_price :=
                  {[ "amount" := pget_or processed_product "price" (PyStr "");
                     "currency" := pget_or processed_product "price_currency" (PyStr "EUR");
                     "unit" := PyStr "piece" ]};
                s_measurements := measurement processed_product;
                s_image_url := image_urls processed_product;
                s_raw_data := product |}
      end
  end.

(** The [for] loop over the raw products, with its handler. *)
Fixpoint structure_loop `{urllib : UrlLib} (dp : DataProcessor) (now : nat → string)
    (supplier_name : string) (i : nat) (raw_products : list raw_record)
    (structured_products : list structured_product) (w : world)
  : list structured_product * world :=
  match raw_products with
  | [] => (structured_products, w)
  | product :: rest =>
      match structure_product dp product supplier_name (now i) with
      | Ok structured =>
          structure_loop dp now supplier_name (S i) rest
                         (structured_products ++ [structured]) w
      | Raise e =>
          let name := rget product "name" (PyStr "Unknown") in
          let w := log_error e ("processing product " +:+ py_str name) w in
          let w := record_error (ErrorEntry supplier_name (Some name) e) w in
          structure_loop dp now supplier_name (S i) rest structured_products w
      end
  end.

(** The entry the handler of the loop records for the record [r] at
    position [j], if any. *)
Definition reported `{urllib : UrlLib} (dp : DataProcessor) (now : nat → string)
    (supplier_name : string) (j : nat) (r : raw_record) : option error_entry :=
  match structure_product dp r supplier_name (now j) with
  | Ok _ => None
  | Raise e => Some (ErrorEntry supplier_name (Some (rget r "name" (PyStr "Unknown"))) e)
  end.

(** [str(n)] for a length. *)
Definition str_of_nat (n : nat) : string := NilEmpty.string_of_uint (Nat.to_uint n).

(** [raw_products] is [scraper.all_products]. *)
Definition _process_scraper_output `{urllib : UrlLib} (dp : DataProcessor)
    (now : nat → string) (raw_products : list raw_record) (supplier_name : string)
    (w : world) : list structured_product * world :=
  match raw_products with
  | [] => ([], log_warning ("No products found for " +:+ supplier_name) w)
  | _ :: _ =>
      let '(structured_products, w) :=
        structure_loop dp now supplier_name 0 raw_products [] w in
      let structured_products := remove_duplicates structured_products in
      (structured_products,
       log_success ("Processed " +:+ str_of_nat (length structured_products)
                    +:+ " products from " +:+ supplier_name) w)
  end.

(** ** [OutputManager.append_products_to_session], the JSON file *)

(** A value of the session file's [metadata] mapping. *)
Inductive jval : Type :=
| JStr (s : string)
| JNum (n : Z).

(** The document of a session file: [{"metadata": ..., "products": ...}]. *)
Record session_data (P : Type) : Type := SessionData {
  sd_metadata : gmap string jval;
  sd_products : list P
}.
Global Arguments SessionData {P} _ _.
Global Arguments sd_metadata {P} _.
Global Arguments sd_products {P} _.

(** The [json] module on session documents: [json_load] is [json.load]
    followed by the reads of [data["products"]] and [data["metadata"]],
    and raises when the text is not such a document; [json_dump] lists
    the chunks [json.dump] writes, in order. *)
Class JsonLib (P : Type) : Type := {
  json_load : string → result (session_data P);
  json_dump : session_data P → list string
}.

(** The files of the output directory: path to content. *)
Abbreviation filesystem := (gmap string string).

(** The two primitive effects of writing a file anew: [open(path, 'w')]
    creates or empties it, each [write] extends it. *)
Inductive fs_op : Type :=
| Truncate (path : string)
| FileWrite (path : string) (chunk : string).

Definition apply_op (fs : filesystem) (op : fs_op) : filesystem :=
  match op with
  | Truncate path => <[path := ""]> fs
  | FileWrite path chunk => <[path := default "" (fs !! path) +:+ chunk]> fs
  end.

Definition run_ops (ops : list fs_op) (fs : filesystem) : filesystem :=
  foldl apply_op fs ops.

Definition session_json_path (data_dir scraper_name session_id : string) : string :=
  data_dir +:+ "/" +:+ scraper_name +:+ "_products_" +:+ session_id +:+ ".json".

(** The document after [extend] and the two metadata updates. *)
Definition extend_session {P} (data : session_data P) (products : list P)
    (now : string) : session_data P :=
  let all := sd_products data ++ products in
  SessionData
    (<["last_updated" := JStr now]>
       (<["total_products" := JNum (Z.of_nat (length all))]> (sd_metadata data)))
    all.



(** ** [get_materials_by_category] of the API server *)

Inductive response (A : Type) : Type :=
| Return (a : A)
| HTTPException (status_code : Z) (detail : string).
Global Arguments Return {A} a.
Global Arguments HTTPException {A} status_code detail.

(** A slice bound clamped the way [l[start:stop]] clamps it. *)
Definition slice_bound (n i : Z) : Z :=
  if i <? 0 then Z.max (i + n) 0 else Z.min i n.

(** [l[start:stop]]. *)
Definition py_slice {A} (l : list A) (start stop : Z) : list A :=
  let n := Z.of_nat (length l) in
  let a := slice_bound n start in
  let b := slice_bound n stop in
  take (Z.to_nat (b - a)) (drop (Z.to_nat a) l).

(** [[p for p in products if p.get(key) == value]]. *)
Definition filter_eq (key value : string) (products : list product) : list product :=
  List.filter (λ p, bool_decide (pget p key = Some (PyStr value))) products.

(** [products] is what [_load_products] returned for this request. *)
Definition get_materials_by_category (products : list product) (category : string)
    (supplier : option string) (limit offset : Z) : response (list product) :=
  let products := filter_eq "category" category products in
  let products :=
    match supplier with
    | Some s => if nonempty s then filter_eq "supplier" s products else products
    | None => products
    end in
  let products := py_slice products offset (offset + limit) in
  match products with
  | [] => HTTPException 404 ("No products found for category: " +:+ category)
  | _ => Return products
  end.

(** ** Worked instances of the library interfaces *)

(** The scheme and network-location steps of [urlsplit]: a scheme is the
    text before the first colon when it is not empty and made of letters,
    digits, [+], [-] and [.]; the network location follows [//] and runs
    to the next [/], [?] or [#]. *)
Definition is_scheme_char (c : ascii) : bool :=
  Str.is_cased c || Str.is_digit c
  || Ascii.eqb c "+" || Ascii.eqb c "-" || Ascii.eqb c ".".

Definition is_netloc_end (c : ascii) : bool :=
  Ascii.eqb c "/" || Ascii.eqb c "?" || Ascii.eqb c "#".

Definition urlsplit_model (url : string) : option (string * string) :=
  let '(scheme, rest) :=
    match Str.find ":" url with
    | Some (S i) =>
        if Str.forallb is_scheme_char (Str.take (S i) url)
        then (Str.lower (Str.take (S i) url), Str.drop (S (S i)) url)
        else (EmptyString, url)
    | _ => (EmptyString, url)
    end in
  if Str.prefix "//" rest then
    let netloc := Str.take_until is_netloc_end (Str.drop 2 rest) in
    if xorb (Str.mem "[" netloc) (Str.mem "]" netloc) then None
    else Some (scheme, netloc)
  else Some (scheme, EmptyString).

Definition urllib_model : UrlLib := urlsplit_model.

(** A raw record and a product given by their scalar entries alone. *)
Definition raw_of (entries : list (string * pyval)) : raw_record :=
  RawRecord (list_to_map entries) ∅ (ImgList []) (ImgList []).

Definition product_of (entries : list (string * pyval)) : product :=
  Product (list_to_map entries) ∅ [] ∅.

Definition is_hex (c : ascii) : bool :=
  Str.is_digit c || ((97 <=? N_of_ascii c)%N && (N_of_ascii c <=? 102)%N).


(** Inputs of the worked examples. *)
Definition example_clock : nat → string := λ _, "2024-01-01T00:00:00".

Definition record_without_name : raw_record :=
  raw_of [("product_url", PyStr "https://www.castorama.fr/p/1");
          ("price", PyStr "12,50 €"); ("sku_id", PyStr "A1")].

Definition record_complete : raw_record :=
  raw_of [("product_name", PyStr "Evier inox");
          ("product_url", PyStr "https://www.castorama.fr/p/2");
          ("price", PyStr "89.90"); ("sku_id", PyStr "A2")].

Definition paint_product : product :=
  product_of [("category", PyStr "Peinture"); ("supplier", PyStr "castorama");
              ("product_name", PyStr "Peinture blanche")].








(** The line the batch prints for the record [r] at position [i], if any. *)
Definition printed `{urllib : UrlLib} (dp : DataProcessor) (now : nat → string)
    (supplier : string) (i : nat) (r : raw_record) : option string :=
  match process_product dp r supplier (now i) with
  | Ok _ => None
  | Raise e =>
      Some ("Error processing product "
            +:+ py_str (rget r "product_name" (PyStr "Unknown")) +:+ ": " +:+ e)
  end.

(** The structured product of the record [r] at position [i], if any. *)
Definition structured `{urllib : UrlLib} (dp : DataProcessor) (now : nat → string)
    (supplier_name : string) (i : nat) (r : raw_record) : option structured_product :=
  match structure_product dp r supplier_name (now i) with
  | Ok s => Some s
  | Raise _ => None
  end.

(** ** The other endpoints of the API server *)

(** [if supplier: products = [p for p in products if p.get('supplier') == supplier]]. *)
Definition filter_if (key : string) (value : option string) (products : list product)
  : list product :=
  match value with
  | Some v => if nonempty v then filter_eq key v products else products
  | None => products
  end.

(** [get_materials]; it never raises. *)
Definition get_materials (products : list product) (supplier category : option string)
    (limit offset : Z) : list product :=
  let products := filter_if "supplier" supplier products in
  let products := filter_if "category" category products in
  py_slice products offset (offset + limit).







(** ** [DonizoMaterialScraper.scrape_supplier] and the loop of [run] *)

Global Instance pyval_countable : Countable pyval.
Proof.
  refine (inj_countable' (λ v, match v with PyNone => None | PyStr s => Some s end)
                         (λ o, match o with None => PyNone | Some s => PyStr s end) _).
  by intros [].
Defined.

Definition log_info (message : string) (w : world) : world :=
  log ("ℹ️  " +:+ message) w.

(** The keys of the [scrapers] mapping of [_get_scraper_instance]. *)
Definition scraper_classes : list string := ["castorama"; "leroymerlin"; "manomano"].

(** The scraper made for a supplier, named by the key of its class; what
    its construction does is part of [run_scraper] below. *)
Definition _get_scraper_instance (supplier_name : string) : result string :=
  if bool_decide (Str.lower supplier_name ∈ scraper_classes)
  then Ok (Str.lower supplier_name)
  else Raise ("Unknown supplier: " +:+ supplier_name).

(** The scrapers as the orchestrator uses them:
    [run_scraper class categories] is the [all_products] of a new
    scraper of that class after its [run(categories)], or the message of
    the exception that its construction or its run raises. *)
Class Scrapers : Type :=
  run_scraper : string → list string → result (list raw_record).

(** An entry of [stats['suppliers']]; the categories are a set that the
    code turns into a list, in no order of its choosing. *)
Record supplier_stats : Type := SupplierStats {
  products_scraped : nat;
  supplier_categories : gset pyval
}.

(** The state of a run: its surroundings, [stats['suppliers']] and
    [stats['categories']]. *)
Record run_state : Type := RunState {
  rs_world : world;
  stats_suppliers : gmap string supplier_stats;
  stats_categories : gmap pyval nat
}.

Definition in_world (f : world → world) (st : run_state) : run_state :=
  {| rs_world := f (rs_world st);
     stats_suppliers := stats_suppliers st;
     stats_categories := stats_categories st |}.

(** [p['category'] for p in structured_products]; a product without the
    entry raises [KeyError]. *)
Fixpoint categories_of {A} `{PyDict A} (structured_products : list A)
  : result (list pyval) :=
  match structured_products with
  | [] => Ok []
  | p :: rest =>
      match dict_get p "category" with
      | None => Raise "'category'"
      | Some category =>
          match categories_of rest with
          | Ok categories => Ok (category :: categories)
          | Raise e => Raise e
          end
      end
  end.

(** [now] reads the clock for the records of this supplier. *)
Definition scrape_supplier `{urllib : UrlLib} `{scrapers : Scrapers}
    (dp : DataProcessor) (now : nat → string) (supplier_name : string)
    (categories : list string) (st : run_state)
  : list structured_product * run_state :=
  let st := in_world (log_info ("Starting scrape for " +:+ supplier_name)) st in
  let failed (e : string) (st : run_state) : list structured_product * run_state :=
    ([], in_world (λ w, record_error (ErrorEntry supplier_name None e)
                          (log_error e ("scraping " +:+ supplier_name) w)) st) in
  match _get_scraper_instance supplier_name with
  | Raise e => failed e st
  | Ok scraper_class =>
      match run_scraper scraper_class categories with
      | Raise e => failed e st
      | Ok all_products =>
          let '(structured_products, w) :=
            _process_scraper_output dp now all_products supplier_name (rs_world st) in
          let st := in_world (λ _, w) st in
          match categories_of structured_products with
          | Raise e => failed e st
          | Ok found =>
              (structured_products,
               {| rs_world := rs_world st;
                  stats_suppliers :=
                    <[supplier_name :=
                        {| products_scraped := length structured_products;
                           supplier_categories := list_to_set found |}]>
                      (stats_suppliers st);
                  stats_categories := stats_categories st |})
          end
      end
  end.

(** The loop of [run] that updates [stats['categories']]; it stops at a
    product without a category, with the [KeyError]. *)
Fixpoint count_categories {A} `{PyDict A} (products : list A)
    (categories : gmap pyval nat) : gmap pyval nat * option string :=
  match products with
  | [] => (categories, None)
  | product :: rest =>
      match dict_get product "category" with
      | None => (categories, Some "'category'")
      | Some category =>
          let categories :=
            if bool_decide (category ∈ dom categories) then categories
            else <[category := 0%nat]> categories in
          count_categories rest
            (<[category := S (default 0%nat (categories !! category))]> categories)
      end
  end.

(** The loop of [run] over the suppliers, from the state at its entry;
    [now k] reads the clock for the records of the supplier at
    position [k]. *)
Fixpoint run_loop `{urllib : UrlLib} `{scrapers : Scrapers} (dp : DataProcessor)
    (now : nat → nat → string) (categories : list string) (k : nat)
    (suppliers : list string) (all_products : list structured_product)
    (all_data_by_supplier : gmap string (list structured_product)) (st : run_state)
  : list structured_product * gmap string (list structured_product) * run_state :=
  match suppliers with
  | [] => (all_products, all_data_by_supplier, st)
  | supplier :: rest =>
      let '(products, st) := scrape_supplier dp (now k) supplier categories st in
      let all_products := all_products ++ products in
      let all_data_by_supplier := <[supplier := products]> all_data_by_supplier in
      let '(counted, raised) := count_categories products (stats_categories st) in
      let st := {| rs_world := rs_world st;
                   stats_suppliers := stats_suppliers st;
                   stats_categories := counted |} in
      let st :=
        match raised with
        | Some e => in_world (log_error e ("Failed to scrape " +:+ supplier)) st
        | None => st
        end in
      run_loop dp now categories (S k) rest all_products all_data_by_supplier st
  end.

(** The list [run] returns, and whose length it stores as
    [stats['total_products']]: the products of the loop after
    [remove_duplicates]. *)
Definition run_products `{urllib : UrlLib} `{scrapers : Scrapers} (dp : DataProcessor)
    (now : nat → nat → string) (suppliers categories : list string) (st : run_state)
  : list structured_product :=
  remove_duplicates (run_loop dp now categories 0 suppliers [] ∅ st).1.1.

(** The sum of the counts of a mapping such as [stats['categories']]. *)
Definition count_total (counts : gmap pyval nat) : nat :=
  map_fold (λ _ n total, (n + total)%nat) 0%nat counts.

(** ** [OutputManager.initialize_session_files] and a session of appends *)

Definition session_csv_path (data_dir scraper_name session_id : string) : string :=
  data_dir +:+ "/" +:+ scraper_name +:+ "_products_" +:+ session_id +:+ ".csv".

(** The columns of a new session's CSV file. *)
Definition session_fieldnames : list string :=
  ["sku_id"; "product_name"; "category"; "price"; "price_currency";
   "product_url"; "brand"; "measurement"; "image_url"; "rating";
   "description"; "initial_price"; "discount_rate"; "original_price";
   "price_m"; "url_path"; "image_urls"].

(** [writer.writeheader()] for names that need no quoting: the names
    between commas, and the line end of the [csv] module. *)
Definition csv_header (fieldnames : list string) : string :=
  match fieldnames with
  | [] => ""
  | name :: names => name +:+ Str.concat ((λ n, "," +:+ n) <$> names)
  end +:+ String "013" (String "010" "").

(** The document a new session file holds. *)
Definition initial_session {P} (scraper_name session_id now : string) : session_data P :=
  SessionData {[ "scraper" := JStr scraper_name;
                 "session_id" := JStr session_id;
                 "scraped_at" := JStr now;
                 "total_products" := JNum 0;
                 "file_version" := JStr "1.0" ]}
              [].

(** The two paths the call returns and its file effects, in the order
    they happen.  [stamp] is [datetime.now().strftime("%Y%m%d_%H%M%S")],
    read when no session id is given, and [now] is
    [datetime.now().isoformat()]. *)
Definition initialize_session_files {P} `{json : JsonLib P}
    (data_dir scraper_name : string) (session_id : option string)
    (stamp now : string) : (string * string) * list fs_op :=
  let session_id := default stamp session_id in
  let json_filepath := session_json_path data_dir scraper_name session_id in
  let csv_filepath := session_csv_path data_dir scraper_name session_id in
  ((json_filepath, csv_filepath),
   (Truncate json_filepath
    :: (FileWrite json_filepath
          <$> json_dump (initial_session (P := P) scraper_name session_id now)))
   ++ [Truncate csv_filepath; FileWrite csv_filepath (csv_header session_fieldnames)]).


(** The document after a batch: an empty batch leaves it alone. *)
Definition after_batch {P} (data : session_data P) (batch : list P * string)
  : session_data P :=
  match batch.1 with
  | [] => data
  | _ :: _ => extend_session data batch.1 batch.2
  end.



(** ** [OutputManager.save_scraper_data_session] *)

(** The document the call writes. *)
Definition saved_session {P} (scraper_name session_id now : string) (data : list P)
  : session_data P :=
  SessionData {[ "scraper" := JStr scraper_name;
                 "session_id" := JStr session_id;
                 "scraped_at" := JStr now;
                 "total_products" := JNum (Z.of_nat (length data));
                 "file_version" := JStr "1.0" ]}
              data.

(** The path the call returns and its file effects; [stamp] and [now]
    are the clock readings of [initialize_session_files]. *)
Definition save_scraper_data_session {P} `{json : JsonLib P}
    (data_dir scraper_name : string) (data : list P) (session_id : option string)
    (stamp now : string) : string * list fs_op :=
  let session_id := default stamp session_id in
  let filepath := session_json_path data_dir scraper_name session_id in
  (filepath,
   Truncate filepath
   :: (FileWrite filepath <$> json_dump (saved_session scraper_name session_id now data))).

(** ** [get_stats], [get_categories] and [get_suppliers] of the API server *)






(** The loop of [get_categories]: each supplier's categories, in the
    order of their first product. *)
Fixpoint categories_loop (products : list product) (categories : gmap pyval (list pyval))
  : gmap pyval (list pyval) :=
  match products with
  | [] => categories
  | product :: rest =>
      let supplier := pget_or product "supplier" (PyStr "unknown") in
      let category := pget_or product "category" (PyStr "unknown") in
      let categories :=
        if bool_decide (supplier ∈ dom categories) then categories
        else <[supplier := []]> categories in
      let found := default [] (categories !! supplier) in
      categories_loop rest
        (if bool_decide (category ∈ found) then categories
         else <[supplier := found ++ [category]]> categories)
  end.

Definition get_categories (products : list product) : gmap pyval (list pyval) :=
  categories_loop products ∅.


(** Further inputs of the worked examples. *)
Definition example_now : string := "2024-01-01T00:00:00".


(** The product the default processor makes of a record of Castorama. *)
Definition processed (r : raw_record) : product :=
  match process_product (urllib := urllib_model) default_processor r
          "castorama" example_now with
  | Ok p => p
  | Raise _ => product_of []
  end.




(** * Properties *)

(** ** Facts about the string primitives *)

Section StrFacts.

Local Open Scope nat_scope.

Lemma Forall_app_str (P : ascii → Prop) (a b : string) :
  Str.Forall P (a +:+ b) ↔ Str.Forall P a ∧ Str.Forall P b.
Proof.
  induction a as [|c a IH]; simpl.
  - tauto.
  - rewrite IH. tauto.
Qed.

Lemma Forall_weaken (P Q : ascii → Prop) (s : string) :
  (∀ c, P c → Q c) → Str.Forall P s → Str.Forall Q s.
Proof.
  intros HPQ. induction s as [|c s IH]; simpl; [done|].
  intros [Hc Hs]. split; auto.
Qed.

Lemma Forall_filter (f : ascii → bool) (s : string) :
  Str.Forall (λ c, f c = true) (Str.filter f s).
Proof.
  induction s as [|c s IH]; simpl; [done|].
  destruct (f c) eqn:Hc; simpl; auto.
Qed.

Lemma Forall_conj (P Q : ascii → Prop) (s : string) :
  Str.Forall P s → Str.Forall Q s → Str.Forall (λ c, P c ∧ Q c) s.
Proof.
  induction s as [|c s IH]; simpl; [done|].
  intros [? ?] [? ?]. auto.
Qed.

Lemma mem_false_Forall (c : ascii) (s : string) :
  Str.mem c s = false → Str.Forall (λ d, d ≠ c) s.
Proof.
  induction s as [|d s IH]; simpl; [done|].
  intros [Hd Hs]%orb_false_iff. split; [|auto].
  by apply Ascii.eqb_neq.
Qed.

Lemma Forall_replace_del (P : ascii → Prop) (old : ascii) (s : string) :
  Str.Forall P s → Str.Forall (λ c, P c ∧ c ≠ old) (Str.replace old "" s).
Proof.
  induction s as [|d s IH]; simpl; [done|].
  intros [Hd Hs]. destruct (Ascii.eqb d old) eqn:E; simpl; [auto|].
  apply Ascii.eqb_neq in E. auto.
Qed.

Lemma Forall_replace_char (P : ascii → Prop) (old new : ascii) (s : string) :
  Str.Forall P s →
  Str.Forall (λ c, (P c ∧ c ≠ old) ∨ c = new) (Str.replace old (String new "") s).
Proof.
  induction s as [|d s IH]; simpl; [done|].
  intros [Hd Hs]. destruct (Ascii.eqb d old) eqn:E; simpl.
  - split; [by right | auto].
  - apply Ascii.eqb_neq in E. split; [left | ]; auto.
Qed.






Lemma mem_count (c : ascii) (s : string) :
  Str.mem c s = true ↔ 0 < Str.count c s.
Proof.
  induction s as [|d s IH]; simpl.
  - split; [done | lia].
  - destruct (Ascii.eqb d c); simpl; [split; [lia | done] | done].
Qed.

Lemma mem_false_count (c : ascii) (s : string) :
  Str.mem c s = false ↔ Str.count c s = 0.
Proof.
  pose proof (mem_count c s) as H.
  destruct (Str.mem c s); split; intros; try done; try lia.
Qed.

Lemma split_length (c : ascii) (s : string) :
  length (Str.split c s) = S (Str.count c s).
Proof.
  induction s as [|d s IH]; simpl; [done|].
  destruct (Ascii.eqb d c); simpl; [by rewrite IH|].
  destruct (Str.split c s) eqn:E; simpl in *; lia.
Qed.

Lemma after_last_absent (c : ascii) (s : string) :
  Str.mem c s = false → Str.after_last c s = s.
Proof.
  destruct s as [|d s]; simpl; [done|].
  intros [Hd Hs]%orb_false_iff. by rewrite Hs, Hd.
Qed.

Lemma split_last (c : ascii) (s : string) :
  List.last (Str.split c s) "" = Str.after_last c s.
Proof.
  induction s as [|d s IH]; simpl; [done|].
  pose proof (split_length c s) as Hlen.
  destruct (Str.mem c s) eqn:Hm.
  - apply mem_count in Hm.
    destruct (Ascii.eqb d c);
      destruct (Str.split c s) as [|h [|h' t]] eqn:E; simpl in *; try lia; done.
  - rewrite (after_last_absent _ _ Hm) in IH.
    apply mem_false_count in Hm. rewrite Hm in Hlen.
    destruct (Str.split c s) as [|h [|h' t]] eqn:E; simpl in *; try lia.
    destruct (Ascii.eqb d c); simpl; congruence.
Qed.

Lemma mem_after_last (a b : ascii) (s : string) :
  Str.mem b (Str.after_last a s) = true → Str.mem b s = true.
Proof.
  induction s as [|d s IH]; simpl; [done|].
  destruct (Str.mem a s).
  - intros H. rewrite (IH H). apply orb_true_r.
  - destruct (Ascii.eqb d a); simpl; [intros ->; apply orb_true_r | done].
Qed.

Lemma rfind_mem (c : ascii) (s : string) :
  (Str.mem c s = true → (0 ≤ Str.rfind c s)%Z)
  ∧ (Str.mem c s = false → Str.rfind c s = (-1)%Z).
Proof.
  induction s as [|d s [IH1 IH2]]; simpl; [done|].
  destruct (Str.mem c s) eqn:Hm.
  - specialize (IH1 eq_refl). rewrite orb_true_r.
    destruct (0 <=? Str.rfind c s)%Z eqn:E; [split; [lia | done] | lia].
  - rewrite (IH2 eq_refl). simpl. rewrite orb_false_r.
    destruct (Ascii.eqb d c); split; done.
Qed.

(** The last [a] lies to the right of the last [b] exactly when no [b]
    follows the last [a]. *)
Lemma rfind_gt_after_last (a b : ascii) (s : string) :
  a ≠ b → Str.mem a s = true →
  (Str.rfind a s >? Str.rfind b s)%Z = negb (Str.mem b (Str.after_last a s)).
Proof.
  intros Hab. induction s as [|d s IH]; simpl; [done|].
  destruct (Str.mem a s) eqn:Hma.
  - intros _. specialize (IH eq_refl).
    destruct (rfind_mem a s) as [Ha _]. specialize (Ha Hma).
    destruct (0 <=? Str.rfind a s)%Z eqn:Ea; [|lia].
    destruct (Str.mem b s) eqn:Hmb.
    + destruct (rfind_mem b s) as [Hb _]. specialize (Hb Hmb).
      destruct (0 <=? Str.rfind b s)%Z eqn:Eb; [|lia].
      rewrite <- IH. apply eq_true_iff_eq. rewrite !Z.gtb_gt. lia.
    + destruct (rfind_mem b s) as [_ Hb]. rewrite (Hb Hmb). simpl.
      destruct (Str.mem b (Str.after_last a s)) eqn:Hal.
      { apply mem_after_last in Hal. congruence. }
      simpl. destruct (Ascii.eqb d b); apply Z.gtb_gt; lia.
  - rewrite orb_false_r. intros Hd. apply Ascii.eqb_eq in Hd as ->.
    destruct (rfind_mem a s) as [_ Ha]. rewrite (Ha Hma). simpl.
    assert (Ascii.eqb a b = false) as -> by (by apply Ascii.eqb_neq).
    rewrite Ascii.eqb_refl.
    destruct (Str.mem b s) eqn:Hmb.
    + destruct (rfind_mem b s) as [Hb _]. specialize (Hb Hmb).
      destruct (0 <=? Str.rfind b s)%Z eqn:Eb; [|lia].
      simpl. rewrite Z.gtb_ltb. apply Z.ltb_ge. lia.
    + destruct (rfind_mem b s) as [_ Hb]. rewrite (Hb Hmb). done.
Qed.

End StrFacts.

(** ** [normalize_price] *)

Section NormalizePrice.

Local Open Scope nat_scope.

Lemma price_of_normalize_price (x currency : pyval) :
  price_of (normalize_price x currency)
  = if truthy x then separate_decimal (strip_non_price (py_str x)) else "".
Proof.
  unfold normalize_price, price_of.
  destruct (truthy x); simpl; by rewrite lookup_insert_eq.
Qed.

Lemma is_price_char_cases (c : ascii) :
  is_price_char c = true → c ≠ ","%char →
  Str.is_digit c = true ∨ c = "."%char.
Proof.
  unfold is_price_char. intros H Hc.
  apply orb_true_iff in H as [H|H]; [|by apply Ascii.eqb_eq in H].
  apply orb_true_iff in H as [H|H]; [by left | right; by apply Ascii.eqb_eq].
Qed.

Lemma separate_decimal_charset (clean : string) :
  Str.Forall (λ c, is_price_char c = true) clean →
  Str.Forall (λ c, Str.is_digit c = true ∨ c = "."%char) (separate_decimal clean).
Proof.
  intros Hclean. unfold separate_decimal.
  destruct (Str.mem "," clean) eqn:Hcomma; simpl.
  - destruct (Str.mem "." clean) eqn:Hdot; simpl.
    + destruct (Str.rfind "," clean >? Str.rfind "." clean)%Z.
      * eapply Forall_weaken;
          [|apply Forall_replace_char, Forall_replace_del, Hclean].
        simpl. intros c [[[Hc _] Hne]| ->]; [|by right].
        by apply is_price_char_cases.
      * eapply Forall_weaken; [|apply Forall_replace_del, Hclean].
        simpl. intros c [Hc Hne]. by apply is_price_char_cases.
    + destruct (_ && _).
      * eapply Forall_weaken; [|apply Forall_replace_char, Hclean].
        simpl. intros c [[Hc Hne]| ->]; [|by right].
        by apply is_price_char_cases.
      * eapply Forall_weaken; [|apply Forall_replace_del, Hclean].
        simpl. intros c [Hc Hne]. by apply is_price_char_cases.
  - eapply Forall_weaken;
      [|apply Forall_conj; [apply Hclean | apply mem_false_Forall, Hcomma]].
    simpl. intros c [Hc Hne]. by apply is_price_char_cases.
Qed.





(** C4, as the code has it.  With both separators present, the kind
    that occurs last is kept as dots and the other kind is removed; with
    commas only, a single comma followed by at most two characters
    becomes a dot and in every other case the commas are removed. *)
Theorem separate_decimal_cases (x currency : pyval) :
  truthy x = true →
  let clean := strip_non_price (py_str x) in
  let price := price_of (normalize_price x currency) in
  (Str.mem "," clean = true → Str.mem "." clean = true →
   Str.mem "." (Str.after_last "," clean) = false →
   price = Str.replace "," "." (Str.replace "." "" clean))
  ∧ (Str.mem "," clean = true → Str.mem "." clean = true →
     Str.mem "." (Str.after_last "," clean) = true →
     price = Str.replace "," "" clean)
  ∧ (Str.mem "," clean = true → Str.mem "." clean = false →
     Str.count "," clean = 1 → String.length (Str.after_last "," clean) ≤ 2 →
     price = Str.replace "," "." clean)
  ∧ (Str.mem "," clean = true → Str.mem "." clean = false →
     ¬ (Str.count "," clean = 1 ∧ String.length (Str.after_last "," clean) ≤ 2) →
     price = Str.replace "," "" clean)
  ∧ (Str.mem "," clean = false → price = clean).
Proof.
  intros Hx. simpl. rewrite price_of_normalize_price, Hx.
  set (clean := strip_non_price (py_str x)). unfold separate_decimal.
  assert (Hparts : Str.mem "," clean = true →
            (length (Str.split "," clean) =? 2)
            && (String.length (Str.split "," clean !!! 1) <=? 2) = true
            ↔ Str.count "," clean = 1 ∧ String.length (Str.after_last "," clean) ≤ 2).
  { intros _. rewrite <- split_last.
    pose proof (split_length "," clean) as Hlen.
    rewrite andb_true_iff, Nat.eqb_eq, Nat.leb_le.
    destruct (Str.split "," clean) as [|h0 [|h1 [|h2 t]]] eqn:E;
      simpl in *; lia. }
  repeat split.
  - intros Hc Hd Hal. rewrite Hc, Hd. simpl.
    by rewrite rfind_gt_after_last, Hal.
  - intros Hc Hd Hal. rewrite Hc, Hd. simpl.
    by rewrite rfind_gt_after_last, Hal.
  - intros Hc Hd Hn Hl. rewrite Hc, Hd. simpl.
    destruct (_ && _) eqn:E; [done|].
    assert (false = true) by (by apply (Hparts Hc)). done.
  - intros Hc Hd Hn. rewrite Hc, Hd. simpl.
    destruct (_ && _) eqn:E; [|done].
    exfalso. apply Hn. by apply (Hparts Hc).
  - intros Hc. by rewrite Hc.
Qed.

Lemma separate_decimal_cases_witness :
  price_of (normalize_price (PyStr "1.234,56 €") (PyStr "EUR")) = "1234.56".
Proof.
  pose proof (separate_decimal_cases (PyStr "1.234,56 €") (PyStr "EUR") eq_refl)
    as [H _].
  apply H; reflexivity.
Defined.

(** C4, as stated, fails on its own example: two commas are both
    removed although the text after the last one has two characters. *)
Lemma normalize_price_two_commas :
  let clean := strip_non_price "1,234,56" in
  Str.mem "," clean = true ∧ Str.mem "." clean = false
  ∧ String.length (Str.after_last "," clean) ≤ 2
  ∧ price_of (normalize_price (PyStr "1,234,56") (PyStr "EUR")) = "123456"
  ∧ price_of (normalize_price (PyStr "1,234,56") (PyStr "EUR")) ≠ "1234.56".
Proof. vm_compute. repeat split; [lia | discriminate]. Qed.

End NormalizePrice.

(** ** [generate_product_id] *)

Section GenerateProductId.

Local Open Scope nat_scope.

Lemma bytes_le_length (width : nat) (x : Z) :
  length (MD5.bytes_le width x) = width.
Proof. unfold MD5.bytes_le. by rewrite length_fmap, length_seq. Qed.

Lemma bytes_le_range (width : nat) (x b : Z) :
  b ∈ MD5.bytes_le width x → (0 ≤ b < 256)%Z.
Proof.
  unfold MD5.bytes_le. intros (k & -> & _)%list_elem_of_fmap.
  apply Z.mod_pos_bound. lia.
Qed.

Lemma digest_length (msg : list Z) : length (MD5.digest msg) = 16.
Proof.
  unfold MD5.digest. destruct (foldl _ _ _) as [a b c d].
  by rewrite !length_app, !bytes_le_length.
Qed.

Lemma digest_range (msg : list Z) (b : Z) :
  b ∈ MD5.digest msg → (0 ≤ b < 256)%Z.
Proof.
  unfold MD5.digest. destruct (foldl _ _ _) as [a0 b0 c0 d0].
  rewrite !elem_of_app. intros [H|[H|[H|H]]]; by eapply bytes_le_range.
Qed.

Lemma hex_digit_is_hex (x : Z) :
  (0 ≤ x < 16)%Z → is_hex (MD5.hex_digit x) = true.
Proof.
  intros H.
  assert (x = 0 ∨ x = 1 ∨ x = 2 ∨ x = 3 ∨ x = 4 ∨ x = 5 ∨ x = 6 ∨ x = 7
          ∨ x = 8 ∨ x = 9 ∨ x = 10 ∨ x = 11 ∨ x = 12 ∨ x = 13 ∨ x = 14
          ∨ x = 15)%Z as Hx by lia.
  repeat (destruct Hx as [->|Hx]; [reflexivity|]). by subst.
Qed.

Lemma hex_of_bytes_length (bs : list Z) :
  String.length (MD5.hex_of_bytes bs) = 2 * length bs.
Proof. induction bs as [|b bs IH]; simpl; [done|]. rewrite IH. lia. Qed.

Lemma hex_of_bytes_is_hex (bs : list Z) :
  (∀ b, b ∈ bs → (0 ≤ b < 256)%Z) →
  Str.Forall (λ c, is_hex c = true) (MD5.hex_of_bytes bs).
Proof.
  induction bs as [|b bs IH]; simpl; [done|].
  intros Hbs. assert (0 ≤ b < 256)%Z as Hb by apply Hbs, list_elem_of_here.
  repeat split.
  - apply hex_digit_is_hex. split; [by apply Z.div_pos; lia|].
    apply Z.div_lt_upper_bound; lia.
  - apply hex_digit_is_hex, Z.mod_pos_bound. lia.
  - apply IH. intros b' Hb'. by apply Hbs, list_elem_of_further.
Qed.

Lemma take_length (n : nat) (s : string) :
  n ≤ String.length s → String.length (Str.take n s) = n.
Proof.
  revert s. induction n as [|n IH]; intros [|c s]; simpl; try done; try lia.
  intros H. rewrite IH; lia.
Qed.

Lemma Forall_take (P : ascii → Prop) (n : nat) (s : string) :
  Str.Forall P s → Str.Forall P (Str.take n s).
Proof.
  revert s. induction n as [|n IH]; intros [|c s]; simpl; try done.
  intros [? ?]. auto.
Qed.

(** The URL fallback is eight lower-case hexadecimal characters. *)
Lemma url_hash_shape (url : string) :
  String.length (Str.take 8 (MD5.hexdigest url)) = 8
  ∧ Str.Forall (λ c, is_hex c = true) (Str.take 8 (MD5.hexdigest url)).
Proof.
  unfold MD5.hexdigest. split.
  - apply take_length. rewrite hex_of_bytes_length, digest_length. lia.
  - apply Forall_take, hex_of_bytes_is_hex. intros b. apply digest_range.
Qed.

Lemma truthy_PyStr (v : pyval) : truthy v = true → v = PyStr (py_str v).
Proof. by destruct v. Qed.

(** C9, as the code has it: the id is a function of its three
    arguments; with a non-empty SKU it is the supplier, an underscore
    and the SKU; with an empty SKU and a URL it is the supplier, an
    underscore and the first eight hexadecimal characters of the MD5 of
    the URL; two different non-empty SKUs give different ids. *)
Theorem generate_product_id_format (supplier : string) (product_url sku_id : pyval) :
  (∀ supplier' product_url' sku_id',
     supplier = supplier' → product_url = product_url' → sku_id = sku_id' →
     generate_product_id supplier product_url sku_id
     = generate_product_id supplier' product_url' sku_id')
  ∧ (truthy sku_id = true →
     generate_product_id supplier product_url sku_id
     = Ok (supplier +:+ "_" +:+ py_str sku_id))
  ∧ (truthy sku_id = false → ∀ url, product_url = PyStr url →
     generate_product_id supplier product_url sku_id
     = Ok (supplier +:+ "_" +:+ Str.take 8 (MD5.hexdigest url))
     ∧ String.length (Str.take 8 (MD5.hexdigest url)) = 8
     ∧ Str.Forall (λ c, is_hex c = true) (Str.take 8 (MD5.hexdigest url)))
  ∧ (∀ sku_id', truthy sku_id = true → truthy sku_id' = true → sku_id ≠ sku_id' →
     generate_product_id supplier product_url sku_id
     ≠ generate_product_id supplier product_url sku_id').
Proof.
  unfold generate_product_id. repeat split.
  - by intros ??? -> -> ->.
  - by intros ->.
  - subst. by rewrite H.
  - apply url_hash_shape.
  - apply url_hash_shape.
  - intros sku_id' H1 H2 Hne. rewrite H1, H2. intros [= Heq].
    apply String.app_inj in Heq. simpl in Heq.
    apply Hne. rewrite (truthy_PyStr _ H1), (truthy_PyStr _ H2).
    f_equal. by simplify_eq.
Qed.

Lemma generate_product_id_format_witness :
  generate_product_id "castorama" (PyStr "https://example.com/product") (PyStr "SKU123")
  = Ok "castorama_SKU123"
  ∧ generate_product_id "castorama" (PyStr "https://example.com/product") (PyStr "")
    = Ok "castorama_b15024fa"
  ∧ generate_product_id "castorama" (PyStr "https://example.com/product") (PyStr "SKU123")
    ≠ generate_product_id "castorama" (PyStr "https://example.com/product") (PyStr "SKU124").
Proof.
  pose proof (generate_product_id_format "castorama"
                (PyStr "https://example.com/product") (PyStr "SKU123"))
    as (_ & Hsku & _ & Hdiff).
  pose proof (generate_product_id_format "castorama"
                (PyStr "https://example.com/product") (PyStr ""))
    as (_ & _ & Hurl & _).
  split; [exact (Hsku eq_refl)|]. split.
  - exact (proj1 (Hurl eq_refl _ eq_refl)).
  - apply (Hdiff (PyStr "SKU124")); [reflexivity | reflexivity | discriminate].
Defined.

(** C9, as stated, fails: an empty SKU and the SKU that spells the URL
    hash are different SKUs with one id. *)
Lemma generate_product_id_sku_clash :
  PyStr "" ≠ PyStr "b15024fa"
  ∧ generate_product_id "castorama" (PyStr "https://example.com/product") (PyStr "")
    = generate_product_id "castorama" (PyStr "https://example.com/product")
        (PyStr "b15024fa").
Proof. split; [discriminate | vm_compute; reflexivity]. Qed.

End GenerateProductId.

(** ** [normalize_brand] and the brand of a processed product *)

Section NormalizeBrand.

Context `{urllib : UrlLib}.

Lemma normalize_price_no_brand (price currency : pyval) :
  normalize_price price currency !! "brand" = None.
Proof. unfold normalize_price. by destruct (negb (truthy price)). Qed.

(** The processor stores what [normalize_brand] returned, unchanged. *)
Lemma process_product_brand (dp : DataProcessor) (r : raw_record)
    (supplier now : string) (p : product) :
  process_product dp r supplier now = Ok p →
  pget p "brand" = Some (PyStr (normalize_brand (rget r "brand" (PyStr "")))).
Proof.
  unfold process_product. destruct (generate_product_id _ _ _) as [id|]; [|done].
  intros [= <-]. unfold pget. simpl.
  rewrite lookup_insert_ne by done.
  destruct (truthy (rget r "discount_rate" PyNone));
    destruct (truthy (rget r "original_price" PyNone));
    rewrite ?lookup_insert_ne by done;
    by rewrite lookup_union_r by apply normalize_price_no_brand.
Qed.

End NormalizeBrand.

(** C2 on the code: the upper-case brand is title-cased, but the empty
    brand stays empty and ["N/A"] stays ["N/A"], in [normalize_brand]
    and in the product built from it; neither becomes ["Unknown"]. *)
Theorem normalize_brand_no_unknown :
  normalize_brand (PyStr "BRAND NAME") = "Brand Name"
  ∧ normalize_brand (PyStr "") = ""
  ∧ normalize_brand (PyStr "N/A") = "N/A"
  ∧ match process_product (urllib := urllib_model) default_processor
            (raw_of [("product_name", PyStr "Evier"); ("brand", PyStr "N/A")])
            "castorama" "2024-01-01T00:00:00" with
    | Ok p => pget p "brand"
    | Raise _ => None
    end = Some (PyStr "N/A")
  ∧ match process_product (urllib := urllib_model) default_processor
            (raw_of [("product_name", PyStr "Evier"); ("brand", PyStr "")])
            "castorama" "2024-01-01T00:00:00" with
    | Ok p => pget p "brand"
    | Raise _ => None
    end = Some (PyStr "").
Proof.
  repeat split; vm_compute; reflexivity.
Qed.

(** ** [determine_availability] *)

Section Availability.

Lemma contains_prefix (sub s : string) :
  Str.prefix sub s = true → Str.contains sub s = true.
Proof. intros Hp. destruct s; simpl; by rewrite Hp. Qed.

Lemma contains_tail (c : ascii) (sub s : string) :
  Str.contains (String c sub) s = true → Str.contains sub s = true.
Proof.
  induction s as [|d s IH].
  - simpl. discriminate.
  - intros Hc. cbn [Str.contains] in Hc |- *.
    apply orb_true_iff in Hc as [Hp|Hc].
    + cbn [Str.prefix] in Hp. apply andb_true_iff in Hp as [_ Hp].
      rewrite (contains_prefix _ _ Hp). apply orb_true_r.
    + rewrite (IH Hc). apply orb_true_r.
Qed.

(** C10: a text containing "indisponible" reads as in stock, because
    "disponible" is inside it and the in-stock indicators come first. *)
Theorem indisponible_reads_in_stock (product_data : raw_record) :
  Str.contains "indisponible" (text_to_check product_data) = true →
  determine_availability product_data = "in_stock"
  ∧ determine_availability product_data ≠ "out_of_stock".
Proof.
  intros Hin.
  assert (Str.contains "disponible" (text_to_check product_data) = true) as Hd
    by (by do 2 apply contains_tail in Hin).
  assert (determine_availability product_data = "in_stock") as ->; [|done].
  unfold determine_availability, availability_indicators.
  cbn [first_status existsb]. rewrite Hd.
  by destruct (Str.contains "en stock" _).
Qed.

Lemma indisponible_reads_in_stock_witness :
  determine_availability
    (raw_of [("product_name", PyStr "Lavabo"); ("description", PyStr "Produit INDISPONIBLE")])
  = "in_stock".
Proof.
  apply (indisponible_reads_in_stock
           (raw_of [("product_name", PyStr "Lavabo");
                    ("description", PyStr "Produit INDISPONIBLE")])).
  vm_compute. reflexivity.
Defined.

End Availability.

(** ** [remove_duplicates] *)

Section RemoveDuplicates.

Context {A : Type} `{PyDict A}.
Implicit Types (p q : A) (xs : list A) (seen : gset string).

Lemma dedupe_loop_acc xs seen (acc : list A) :
  dedupe_loop xs seen acc = acc ++ dedupe_loop xs seen [].
Proof.
  revert seen acc. induction xs as [|p xs IH]; intros seen acc; simpl.
  - by rewrite app_nil_r.
  - destruct (bool_decide (product_key p ∈ seen)); [apply IH|].
    rewrite (IH _ (acc ++ [p])), (IH _ [p]). by rewrite <- app_assoc.
Qed.

Lemma dedupe_loop_cons p xs seen :
  dedupe_loop (p :: xs) seen []
  = if bool_decide (product_key p ∈ seen) then dedupe_loop xs seen []
    else p :: dedupe_loop xs ({[product_key p]} ∪ seen) [].
Proof.
  simpl. destruct (bool_decide (product_key p ∈ seen)); [done|].
  by rewrite dedupe_loop_acc.
Qed.

Lemma dedupe_loop_elem xs seen q :
  q ∈ dedupe_loop xs seen [] → q ∈ xs ∧ product_key q ∉ seen.
Proof.
  revert seen. induction xs as [|p xs IH]; intros seen.
  - simpl. by intros ?%elem_of_nil.
  - rewrite dedupe_loop_cons. case_bool_decide as Hp.
    + intros [? ?]%IH. split; [by apply list_elem_of_further | done].
    + intros [->|Hq]%elem_of_cons; [split; [apply list_elem_of_here | done]|].
      apply IH in Hq as [? Hq]. split; [by apply list_elem_of_further|].
      intros ?. apply Hq, elem_of_union. by right.
Qed.

Lemma dedupe_loop_sublist xs seen : dedupe_loop xs seen [] `sublist_of` xs.
Proof.
  revert seen. induction xs as [|p xs IH]; intros seen.
  - simpl. constructor.
  - rewrite dedupe_loop_cons. case_bool_decide.
    + by apply sublist_cons.
    + by apply sublist_skip.
Qed.

Lemma dedupe_loop_NoDup xs seen : NoDup (product_key <$> dedupe_loop xs seen []).
Proof.
  revert seen. induction xs as [|p xs IH]; intros seen.
  - simpl. constructor.
  - rewrite dedupe_loop_cons. case_bool_decide; [apply IH|].
    rewrite fmap_cons. constructor; [|apply IH].
    intros (q & Hk & Hq)%list_elem_of_fmap.
    apply dedupe_loop_elem in Hq as [_ Hq]. apply Hq, elem_of_union. left.
    by apply elem_of_singleton.
Qed.

(** A list of products with distinct, unseen keys passes unchanged. *)
Lemma dedupe_loop_fixed xs seen :
  NoDup (product_key <$> xs) → (∀ q, q ∈ xs → product_key q ∉ seen) →
  dedupe_loop xs seen [] = xs.
Proof.
  revert seen. induction xs as [|p xs IH]; intros seen Hnd Hseen; [done|].
  rewrite dedupe_loop_cons. rewrite fmap_cons in Hnd.
  apply NoDup_cons in Hnd as [Hp Hnd].
  rewrite bool_decide_eq_false_2 by apply Hseen, list_elem_of_here.
  f_equal. apply IH; [done|]. intros q Hq [Hin|Hin]%elem_of_union.
  - apply elem_of_singleton in Hin. apply Hp, list_elem_of_fmap. eauto.
  - by apply (Hseen q); [apply list_elem_of_further|].
Qed.

Lemma dedupe_loop_find xs seen (k : string) :
  k ∉ seen →
  List.find (λ p, bool_decide (product_key p = k)) (dedupe_loop xs seen [])
  = List.find (λ p, bool_decide (product_key p = k)) xs.
Proof.
  revert seen. induction xs as [|p xs IH]; intros seen Hk; [done|].
  rewrite dedupe_loop_cons. case_bool_decide as Hp; cbn [List.find].
  - rewrite bool_decide_eq_false_2 by (intros <-; done). by apply IH.
  - case_bool_decide as Hpk; [done|]. apply IH.
    intros [Hin|Hin]%elem_of_union; [|done].
    apply elem_of_singleton in Hin. done.
Qed.

(** C8: deduplicating twice changes nothing more, and the result lists
    the first occurrence of every key in the order of the input: it is a
    subsequence of the input, no key occurs twice in it, and for every
    key the product it holds is the first product of the input with
    that key. *)
Theorem remove_duplicates_idempotent_ordered xs :
  remove_duplicates (remove_duplicates xs) = remove_duplicates xs
  ∧ remove_duplicates xs `sublist_of` xs
  ∧ NoDup (product_key <$> remove_duplicates xs)
  ∧ ∀ k, List.find (λ p, bool_decide (product_key p = k)) (remove_duplicates xs)
         = List.find (λ p, bool_decide (product_key p = k)) xs.
Proof.
  unfold remove_duplicates. repeat split.
  - apply dedupe_loop_fixed; [apply dedupe_loop_NoDup|].
    intros q _. apply not_elem_of_empty.
  - apply dedupe_loop_sublist.
  - apply dedupe_loop_NoDup.
  - intros k. apply dedupe_loop_find, not_elem_of_empty.
Qed.

(** Two products with the same URL entry and the same name entry have
    one key, and the second of two products with one key is dropped. *)
Lemma same_pair_same_key p q :
  dict_get p "product_url" = dict_get q "product_url" →
  dict_get p "product_name" = dict_get q "product_name" →
  product_key p = product_key q.
Proof. unfold product_key. by intros -> ->. Qed.

Lemma remove_duplicates_pair p q :
  remove_duplicates [p; q]
  = if bool_decide (product_key p = product_key q) then [p] else [p; q].
Proof.
  unfold remove_duplicates. rewrite !dedupe_loop_cons.
  rewrite bool_decide_eq_false_2 by apply not_elem_of_empty.
  destruct (decide (product_key p = product_key q)) as [Heq|Hne].
  - rewrite (bool_decide_eq_true_2 _ Heq).
    rewrite bool_decide_eq_true_2; [done|].
    rewrite Heq. apply elem_of_union. left. by apply elem_of_singleton.
  - rewrite (bool_decide_eq_false_2 _ Hne).
    rewrite bool_decide_eq_false_2; [done|].
    intros [Hin|Hin]%elem_of_union.
    + apply elem_of_singleton in Hin. congruence.
    + by apply not_elem_of_empty in Hin.
Qed.

Lemma remove_duplicates_elem xs q : q ∈ remove_duplicates xs → q ∈ xs.
Proof. intros Hq. by apply dedupe_loop_elem in Hq as [? _]. Qed.

Lemma remove_duplicates_represents xs p :
  p ∈ xs → ∃ q, q ∈ remove_duplicates xs ∧ product_key q = product_key p.
Proof.
  intros Hp. unfold remove_duplicates.
  pose proof (dedupe_loop_find xs ∅ (product_key p) (not_elem_of_empty _)) as Hfind.
  destruct (List.find _ (dedupe_loop xs ∅ [])) as [q|] eqn:Hq.
  - apply find_some in Hq as [Hq Hk]. exists q.
    split; [by apply list_elem_of_In | by apply bool_decide_eq_true in Hk].
  - symmetry in Hfind. apply list_elem_of_In in Hp.
    apply (find_none _ _ Hfind) in Hp. by apply bool_decide_eq_false in Hp.
Qed.

End RemoveDuplicates.

(** C5 on the code: two products that differ in URL and in name are
    merged, because the two fields are joined with an underscore that
    both may contain. *)
Theorem remove_duplicates_merges_distinct_pairs :
  let p := product_of [("product_url", PyStr "https://www.castorama.fr/evier_inox");
                       ("product_name", PyStr "1_bac")] in
  let q := product_of [("product_url", PyStr "https://www.castorama.fr/evier");
                       ("product_name", PyStr "inox_1_bac")] in
  pget p "product_url" ≠ pget q "product_url"
  ∧ pget p "product_name" ≠ pget q "product_name"
  ∧ remove_duplicates [p; q] = [p].
Proof.
  intros p q. split; [by vm_compute|]. split; [by vm_compute|].
  rewrite remove_duplicates_pair. by vm_compute.
Qed.

(** ** [process_products_batch] *)

Section Batch.

Context `{urllib : UrlLib}.
Implicit Types (dp : DataProcessor) (now : nat → string) (w : world).

Local Open Scope nat_scope.

Lemma batch_loop_errors dp now supplier i products acc w :
  run_errors (batch_loop dp now supplier i products acc w).2 = run_errors w.
Proof.
  revert i acc w. induction products as [|r rest IH]; intros i acc w; [done|].
  simpl. destruct (process_product dp r supplier (now i)) as [p|e].
  - destruct (validate_product p); apply IH.
  - by rewrite IH.
Qed.

(** Whatever the loop adds is valid and is the product of a record of
    the batch. *)
Lemma batch_loop_sound dp now supplier i products acc w q :
  q ∈ (batch_loop dp now supplier i products acc w).1 →
  q ∈ acc ∨ (validate_product q = true
             ∧ ∃ j r, products !! j = Some r
                      ∧ process_product dp r supplier (now (i + j)) = Ok q).
Proof.
  revert i acc w. induction products as [|r rest IH]; intros i acc w; [by left|].
  simpl. destruct (process_product dp r supplier (now i)) as [p|e] eqn:Hp.
  - destruct (validate_product p) eqn:Hv.
    + intros [[Hq| ->%list_elem_of_singleton]%elem_of_app|(Hq & j & r' & Hj & Hr)]%IH.
      * by left.
      * right. split; [done|]. exists 0, r. by rewrite Nat.add_0_r.
      * right. split; [done|]. exists (S j), r'.
        by rewrite Nat.add_succ_r.
    + intros [Hq|(Hq & j & r' & Hj & Hr)]%IH; [by left|].
      right. split; [done|]. exists (S j), r'. by rewrite Nat.add_succ_r.
  - intros [Hq|(Hq & j & r' & Hj & Hr)]%IH; [by left|].
    right. split; [done|]. exists (S j), r'. by rewrite Nat.add_succ_r.
Qed.

(** Every record whose product is valid contributes that product, and
    nothing already collected is lost, whatever the other records are. *)
Lemma batch_loop_complete dp now supplier i products acc w :
  (∀ q, q ∈ acc → q ∈ (batch_loop dp now supplier i products acc w).1)
  ∧ (∀ j r p, products !! j = Some r →
       process_product dp r supplier (now (i + j)) = Ok p →
       validate_product p = true →
       p ∈ (batch_loop dp now supplier i products acc w).1).
Proof.
  revert i acc w. induction products as [|r rest IH]; intros i acc w.
  { split; [done | by intros j r p ?]. }
  simpl. split.
  - intros q Hq.
    destruct (process_product dp r supplier (now i)) as [p|e];
      [destruct (validate_product p)|]; apply IH; try done.
    apply elem_of_app. by left.
  - intros [|j] r' p Hj Hp Hv; simpl in Hj.
    + injection Hj as ->. rewrite Nat.add_0_r in Hp. rewrite Hp, Hv.
      apply IH, elem_of_app. right. apply list_elem_of_here.
    + rewrite Nat.add_succ_r in Hp.
      destruct (process_product dp r supplier (now i)) as [p0|e];
        [destruct (validate_product p0)|]; by eapply (proj2 (IH (S i) _ _)).
Qed.

End Batch.

(** C3, as the code has it: a record whose product lacks a required
    field is left out of the returned list, every record with a valid
    product is still represented in it, and the error list of the run
    is left as it was. *)
Theorem batch_drops_invalid_without_report `{urllib : UrlLib} (dp : DataProcessor)
    (now : nat → string) (products : list raw_record) (supplier : string) (w : world) :
  let out := (process_products_batch dp now products supplier w).1 in
  let w' := (process_products_batch dp now products supplier w).2 in
  (∀ q, q ∈ out →
     validate_product q = true
     ∧ ∃ i r, products !! i = Some r
              ∧ process_product dp r supplier (now i) = Ok q)
  ∧ (∀ i r p, products !! i = Some r →
       process_product dp r supplier (now i) = Ok p →
       validate_product p = false → p ∉ out)
  ∧ (∀ i r p, products !! i = Some r →
       process_product dp r supplier (now i) = Ok p →
       validate_product p = true →
       ∃ q, q ∈ out ∧ product_key q = product_key p
            ∧ (cfg_remove_duplicates dp = false → q = p))
  ∧ run_errors w' = run_errors w.
Proof.
  intros out w'.
  assert (Hsound : ∀ q, q ∈ out →
            validate_product q = true
            ∧ ∃ i r, products !! i = Some r
                     ∧ process_product dp r supplier (now i) = Ok q).
  { intros q Hq. subst out. unfold process_products_batch in Hq.
    destruct (batch_loop dp now supplier 0 products [] w) as [l wl] eqn:Hl.
    assert (q ∈ l) as Hql.
    { destruct (cfg_remove_duplicates dp); simpl in Hq;
        [by apply remove_duplicates_elem | done]. }
    pose proof (batch_loop_sound dp now supplier 0 products [] w q) as Hs.
    rewrite Hl in Hs. destruct (Hs Hql) as [Hnil|Hs']; [by apply elem_of_nil in Hnil|].
    done. }
  split; [exact Hsound|]. split; [|split].
  - intros i r p _ _ Hv Hp. apply Hsound in Hp as [Hp _]. congruence.
  - intros i r p Hi Hp Hv. subst out. unfold process_products_batch.
    pose proof (proj2 (batch_loop_complete dp now supplier 0 products [] w)
                  i r p Hi Hp Hv) as Hin.
    destruct (batch_loop dp now supplier 0 products [] w) as [l wl].
    simpl in Hin. destruct (cfg_remove_duplicates dp); simpl.
    + destruct (remove_duplicates_represents l p Hin) as (q & Hq & Hk).
      exists q. by repeat split.
    + exists p. by repeat split.
  - subst w'. unfold process_products_batch.
    pose proof (batch_loop_errors dp now supplier 0 products [] w) as He.
    destruct (batch_loop dp now supplier 0 products [] w) as [l wl].
    by destruct (cfg_remove_duplicates dp).
Qed.

Lemma batch_drops_invalid_without_report_witness :
  ∃ q, q ∈ (process_products_batch (urllib := urllib_model) default_processor example_clock
              [record_without_name; record_complete] "castorama" (World [] [] [])).1
       ∧ product_key q = "https://www.castorama.fr/p/2_Evier inox".
Proof.
  destruct (batch_drops_invalid_without_report (urllib := urllib_model) default_processor
              example_clock [record_without_name; record_complete] "castorama"
              (World [] [] [])) as (_ & _ & Hkeep & _).
  edestruct (Hkeep 1%nat record_complete) as (q & Hq & Hk & _);
    [reflexivity | vm_compute; reflexivity | vm_compute; reflexivity |].
  exists q. split; [exact Hq|]. rewrite Hk. vm_compute. reflexivity.
Defined.

(** C3, as stated, fails: the record without a name is dropped, and the
    error list of the run stays empty. *)
Lemma batch_missing_name_not_reported :
  let run := process_products_batch (urllib := urllib_model) default_processor example_clock
               [record_without_name; record_complete] "castorama" (World [] [] []) in
  match process_product (urllib := urllib_model) default_processor record_without_name
          "castorama" (example_clock 0%nat) with
  | Ok p => validate_product p
  | Raise _ => true
  end = false
  ∧ length run.1 = 1%nat
  ∧ run_errors run.2 = [].
Proof. vm_compute. done. Qed.

(** ** [_process_scraper_output] *)

Section ScraperOutput.

Context `{urllib : UrlLib}.
Implicit Types (dp : DataProcessor) (now : nat → string) (w : world).

Local Open Scope nat_scope.

Lemma structure_loop_errors dp now supplier_name i raw_products acc w :
  run_errors (structure_loop dp now supplier_name i raw_products acc w).2
  = run_errors w
    ++ omap id (imap (λ j, reported dp now supplier_name (i + j)) raw_products).
Proof.
  revert i acc w. induction raw_products as [|r rest IH]; intros i acc w.
  { simpl. by rewrite app_nil_r. }
  cbn [structure_loop imap]. unfold reported at 1. rewrite Nat.add_0_r.
  destruct (structure_product dp r supplier_name (now i)) as [s|e].
  - rewrite IH. cbn [omap list_omap id]. f_equal. f_equal.
    apply imap_ext. intros j x _. unfold compose. by rewrite Nat.add_succ_r.
  - rewrite IH. cbn [omap list_omap id]. simpl. rewrite <- app_assoc. f_equal.
    simpl. f_equal. f_equal.
    apply imap_ext. intros j x _. unfold compose. by rewrite Nat.add_succ_r.
Qed.

Lemma normalize_price_no_id (price currency : pyval) :
  normalize_price price currency !! "id" = None.
Proof. unfold normalize_price. by destruct (negb (truthy price)). Qed.

Lemma process_product_id dp r supplier_name t p :
  process_product dp r supplier_name t = Ok p → is_Some (pget p "id").
Proof.
  unfold process_product. destruct (generate_product_id _ _ _) as [id|]; [|done].
  intros [= <-]. unfold pget. simpl.
  rewrite lookup_insert_ne by done.
  destruct (truthy (rget r "discount_rate" PyNone));
    destruct (truthy (rget r "original_price" PyNone));
    rewrite ?lookup_insert_ne by done;
    by rewrite lookup_union_r by apply normalize_price_no_id.
Qed.

(** The handler is reached exactly when [process_product] raises: a
    product that merely lacks a required field is structured and
    reported nowhere. *)
Lemma structure_product_raises dp r supplier_name t e :
  structure_product dp r supplier_name t = Raise e
  ↔ process_product dp r supplier_name t = Raise e.
Proof.
  unfold structure_product.
  destruct (process_product dp r supplier_name t) as [p|e'] eqn:Hp;
    [|split; by intros [= ->]].
  destruct (process_product_id _ _ _ _ _ Hp) as [id ->]. by split.
Qed.

End ScraperOutput.

(** On the orchestrator's path the record without a name is kept and
    nothing is reported; the complete record that follows it is lost to
    the deduplication, since a structured product has neither a
    [product_url] nor a [product_name] entry and all share the key
    of two empty fields. *)
Lemma scraper_output_keeps_nameless_record :
  let run := _process_scraper_output (urllib := urllib_model) default_processor
               example_clock [record_without_name; record_complete] "castorama"
               (World [] [] []) in
  (λ s, (dict_get s "name", product_key s)) <$> run.1 = [(Some (PyStr ""), "_")]
  ∧ run_errors run.2 = [].
Proof. vm_compute. done. Qed.

(** ** [get_materials_by_category] *)

Section Category.

Lemma py_slice_nil {A} (start stop : Z) : py_slice (@nil A) start stop = [].
Proof. unfold py_slice. by rewrite drop_nil, take_nil. Qed.

Lemma filter_eq_none (key value : string) (products : list product) :
  (∀ p, p ∈ products → pget p key ≠ Some (PyStr value)) →
  filter_eq key value products = [].
Proof.
  unfold filter_eq. induction products as [|p ps IH]; intros Hnone; [done|].
  simpl. rewrite bool_decide_eq_false_2 by apply Hnone, list_elem_of_here.
  apply IH. intros q Hq. by apply Hnone, list_elem_of_further.
Qed.

(** C7, as the code has it: the request is answered "not found" exactly
    when the page left after the category filter, the supplier filter
    and the pagination is empty; so a category that matches no product
    is not found, and so is a matching category whose products are all
    removed by the supplier filter or skipped by the offset.  An empty
    list is never returned. *)
Theorem category_not_found_iff_empty_page (products : list product)
    (category : string) (supplier : option string) (limit offset : Z) :
  let by_category := filter_eq "category" category products in
  let filtered :=
    match supplier with
    | Some s => if nonempty s then filter_eq "supplier" s by_category else by_category
    | None => by_category
    end in
  let page := py_slice filtered offset (offset + limit) in
  let not_found := HTTPException 404 ("No products found for category: " +:+ category) in
  (page = [] → get_materials_by_category products category supplier limit offset = not_found)
  ∧ (page ≠ [] →
     get_materials_by_category products category supplier limit offset = Return page)
  ∧ ((∀ p, p ∈ products → pget p "category" ≠ Some (PyStr category)) →
     get_materials_by_category products category supplier limit offset = not_found)
  ∧ get_materials_by_category products category supplier limit offset ≠ Return [].
Proof.
  intros by_category filtered page not_found.
  assert (Hempty : page = [] →
            get_materials_by_category products category supplier limit offset
            = not_found).
  { unfold get_materials_by_category. fold by_category. fold filtered. fold page.
    by intros ->. }
  assert (Hfull : page ≠ [] →
            get_materials_by_category products category supplier limit offset
            = Return page).
  { unfold get_materials_by_category. fold by_category. fold filtered. fold page.
    by destruct page. }
  repeat split; [done | done | |].
  - intros Hnone. apply Hempty. subst page filtered by_category.
    rewrite (filter_eq_none _ _ _ Hnone).
    destruct supplier as [s|]; [destruct (nonempty s)|]; apply py_slice_nil.
  - destruct page as [|p page'] eqn:Hpage.
    + by rewrite Hempty.
    + by rewrite Hfull.
Qed.

Lemma category_not_found_iff_empty_page_witness :
  get_materials_by_category [paint_product] "Carrelage" None 100 0
  = HTTPException 404 "No products found for category: Carrelage"
  ∧ get_materials_by_category [paint_product] "Peinture" (Some "castorama") 100 0
    = Return [paint_product].
Proof.
  split.
  - apply (category_not_found_iff_empty_page [paint_product] "Carrelage" None 100 0).
    intros p ->%list_elem_of_singleton. by vm_compute.
  - apply (category_not_found_iff_empty_page [paint_product] "Peinture"
             (Some "castorama") 100 0).
    by vm_compute.
Defined.

(** C7, as stated, fails: the category matches a product, and both a
    supplier filter that removes it and an offset past the end are
    answered "not found" rather than with an empty list. *)
Lemma matched_category_reported_not_found :
  filter_eq "category" "Peinture" [paint_product] ≠ []
  ∧ get_materials_by_category [paint_product] "Peinture" (Some "manomano") 100 0
    = HTTPException 404 "No products found for category: Peinture"
  ∧ get_materials_by_category [paint_product] "Peinture" None 100 5
    = HTTPException 404 "No products found for category: Peinture".
Proof. split; [by vm_compute|]. split; vm_compute; reflexivity. Qed.

End Category.

(** ** [append_products_to_session] *)

Section Session.

Context {P : Type} `{json : JsonLib P}.

Local Open Scope nat_scope.

Lemma app_assoc_str (a b c : string) : (a +:+ b) +:+ c = a +:+ (b +:+ c).
Proof.
  induction a as [|x a IH]; [done|].
  change (String x ((a +:+ b) +:+ c) = String x (a +:+ (b +:+ c))).
  by rewrite IH.
Qed.

Lemma app_empty_r (a : string) : a +:+ "" = a.
Proof.
  induction a as [|x a IH]; [done|].
  change (String x (a +:+ "") = String x a). by rewrite IH.
Qed.

Lemma concat_snoc (chunks : list string) (chunk : string) :
  Str.concat (chunks ++ [chunk]) = Str.concat chunks +:+ chunk.
Proof.
  unfold Str.concat. induction chunks as [|c cs IH]; simpl.
  - apply app_empty_r.
  - by rewrite IH, app_assoc_str.
Qed.

(** Writing chunks to a file that exists appends them to its content. *)
Lemma run_writes (path content : string) (chunks : list string) (fs : filesystem) :
  fs !! path = Some content →
  run_ops (FileWrite path <$> chunks) fs !! path = Some (content +:+ Str.concat chunks).
Proof.
  unfold run_ops. revert content fs.
  induction chunks as [|c cs IH]; intros content fs Hfs; simpl.
  - by rewrite app_empty_r.
  - rewrite (IH (content +:+ c)).
    + by rewrite app_assoc_str.
    + rewrite Hfs. simpl. apply lookup_insert_eq.
Qed.



End Session.



(** * Further properties of the code *)

Section PriceIdempotent.
Local Open Scope nat_scope.

Lemma filter_fixed (f : ascii → bool) (s : string) :
  Str.Forall (λ c, f c = true) s → Str.filter f s = s.
Proof.
  induction s as [|c s IH]; simpl; [done|].
  intros [-> Hs]. by rewrite IH.
Qed.

Lemma Forall_no_comma (s : string) :
  Str.Forall (λ c, Str.is_digit c = true ∨ c = "."%char) s → Str.mem "," s = false.
Proof.
  induction s as [|c s IH]; simpl; [done|].
  intros [Hc Hs]. rewrite (IH Hs), orb_false_r.
  apply Ascii.eqb_neq. intros ->. by destruct Hc.
Qed.

Lemma digit_or_dot_is_price_char (c : ascii) :
  Str.is_digit c = true ∨ c = "."%char → is_price_char c = true.
Proof. unfold is_price_char. intros [->| ->]; done. Qed.

Lemma separate_decimal_fixed (p : string) :
  Str.Forall (λ c, Str.is_digit c = true ∨ c = "."%char) p →
  separate_decimal (strip_non_price p) = p.
Proof.
  intros Hp. unfold strip_non_price.
  rewrite filter_fixed
    by (eapply Forall_weaken; [apply digit_or_dot_is_price_char | done]).
  unfold separate_decimal. by rewrite (Forall_no_comma _ Hp).
Qed.

(** X1.  Normalising a normalised price changes nothing: the price of the
    result, given back as the text to normalise with the same currency,
    yields the same result. *)
Theorem normalize_price_idempotent (x currency : pyval) :
  normalize_price (PyStr (price_of (normalize_price x currency))) currency
  = normalize_price x currency.
Proof.
  rewrite price_of_normalize_price. destruct (truthy x) eqn:Hx.
  - assert (Str.Forall (λ c, Str.is_digit c = true ∨ c = "."%char)
              (separate_decimal (strip_non_price (py_str x)))) as Hchars
      by apply separate_decimal_charset, Forall_filter.
    unfold normalize_price at 2. rewrite Hx. simpl.
    destruct (separate_decimal (strip_non_price (py_str x))) as [|c p] eqn:Hp;
      [done|].
    unfold normalize_price. cbn [truthy negb py_str].
    by rewrite (separate_decimal_fixed _ Hchars).
  - unfold normalize_price. by rewrite Hx.
Qed.
End PriceIdempotent.

Section Measurement.




Lemma span_digits_rest (s : string) :
  match (Str.span_digits s).2 with
  | String c _ => Str.is_digit c = false
  | EmptyString => True
  end.
Proof.
  induction s as [|c s IH]; simpl; [done|].
  destruct (Str.is_digit c) eqn:Hc; [|done].
  by destruct (Str.span_digits s) as [ds rest].
Qed.




End Measurement.

Section Brand.


















End Brand.

Section Process.

Context `{urllib : UrlLib}.
Implicit Types (dp : DataProcessor) (r : raw_record) (p : product).

Lemma normalize_price_lookup (price currency : pyval) (k : string) :
  normalize_price price currency !! k
  = if decide (k = "price") then Some (PyStr (price_of (normalize_price price currency)))
    else if decide (k = "price_currency") then Some currency else None.
Proof.
  rewrite price_of_normalize_price. unfold normalize_price.
  destruct (truthy price); simpl; repeat case_decide; by simplify_map_eq.
Qed.

(** The scalar entries of a processed product, key by key. *)
Lemma process_product_lookup dp r supplier now p (k : string) :
  process_product dp r supplier now = Ok p →
  ∃ id,
    generate_product_id supplier (rget r "product_url" (PyStr ""))
                        (rget r "sku_id" (PyStr "")) = Ok id
    ∧ pget p k =
      let currency := rget r "price_currency" (price_currency dp) in
      if decide (k = "availability") then Some (PyStr (determine_availability r))
      else if decide (k = "discount_rate") then
        if truthy (rget r "discount_rate" PyNone)
        then Some (rget r "discount_rate" PyNone) else None
      else if decide (k = "original_price") then
        if truthy (rget r "original_price" PyNone)
        then Some (PyStr (price_of (normalize_price (rget r "original_price" PyNone)
                                                    currency)))
        else None
      else if decide (k = "price") then
        Some (PyStr (price_of (normalize_price (rget r "price" (PyStr "")) currency)))
      else if decide (k = "price_currency") then Some currency
      else if decide (k = "id") then Some (PyStr id)
      else if decide (k = "supplier") then Some (PyStr supplier)
      else if decide (k = "brand") then
        Some (PyStr (normalize_brand (rget r "brand" (PyStr ""))))
      else if decide (k = "timestamp") then Some (PyStr (now +:+ "Z"))
      else if decide (k ∈ ["category"; "product_name"; "product_url"; "sku_id";
                           "description"; "rating"])
      then Some (rget r k (PyStr ""))
      else None.
Proof.
  unfold process_product.
  destruct (generate_product_id _ _ _) as [id|]; [|done].
  intros [= <-]. exists id. split; [done|]. unfold pget. cbn [fields].
  cbv zeta.
  destruct (decide (k = "availability")) as [->|Hk1]; [by rewrite lookup_insert_eq|].
  rewrite lookup_insert_ne by done.
  destruct (decide (k = "discount_rate")) as [->|Hk2].
  { destruct (truthy (rget r "discount_rate" PyNone)); [by rewrite lookup_insert_eq|].
    destruct (truthy (rget r "original_price" PyNone));
      rewrite ?lookup_insert_ne by done;
      by rewrite lookup_union_r by (by rewrite normalize_price_lookup). }
  assert (∀ m : gmap string pyval,
            (if truthy (rget r "discount_rate" PyNone)
             then <["discount_rate":=rget r "discount_rate" PyNone]> m else m) !! k
            = m !! k) as ->.
  { intros m. destruct (truthy _); [by rewrite lookup_insert_ne|done]. }
  destruct (decide (k = "original_price")) as [->|Hk3].
  { destruct (truthy (rget r "original_price" PyNone)); [by rewrite lookup_insert_eq|].
    by rewrite lookup_union_r by (by rewrite normalize_price_lookup). }
  assert (∀ (v : pyval) (m : gmap string pyval),
            (if truthy (rget r "original_price" PyNone)
             then <["original_price":=v]> m else m) !! k = m !! k) as ->.
  { intros v m. destruct (truthy _); [by rewrite lookup_insert_ne|done]. }
  rewrite lookup_union, normalize_price_lookup.
  destruct (decide (k = "price")) as [->|Hk4]; [done|].
  destruct (decide (k = "price_currency")) as [->|Hk5]; [done|].
  rewrite (left_id None _).
  destruct (decide (k = "id")) as [->|Hk6]; [by simplify_map_eq|].
  destruct (decide (k = "supplier")) as [->|Hk7]; [by simplify_map_eq|].
  destruct (decide (k = "brand")) as [->|Hk8]; [by simplify_map_eq|].
  destruct (decide (k = "timestamp")) as [->|Hk9]; [by simplify_map_eq|].
  destruct (decide (k ∈ _)) as [Hin|Hin].
  - repeat (apply elem_of_cons in Hin as [->|Hin]; [by simplify_map_eq|]).
    by apply elem_of_nil in Hin.
  - assert (∀ k', k' ∈ ["category"; "product_name"; "product_url"; "sku_id";
                        "description"; "rating"] → k ≠ k') as Hne
      by (intros k' Hk' ->; done).
    rewrite !lookup_insert_ne, lookup_singleton_ne; try done;
      apply not_eq_sym, Hne; repeat constructor.
Qed.

Ltac at_key Hl key :=
  destruct (Hl key) as (? & ? & ->);
  repeat (rewrite decide_False by discriminate);
  rewrite decide_True by first [reflexivity | solve [repeat constructor]].





(** X6.  A processed product passes validation exactly when the record has a
    usable name, a usable URL, and a price of which something is left
    after normalisation. *)
Theorem validate_processed_product dp r supplier now p :
  process_product dp r supplier now = Ok p →
  validate_product p
  = truthy (rget r "product_name" (PyStr ""))
    && truthy (rget r "product_url" (PyStr ""))
    && nonempty (price_of (normalize_price (rget r "price" (PyStr ""))
                             (rget r "price_currency" (price_currency dp)))).
Proof.
  intros Hp.
  assert (Hl := λ k, process_product_lookup dp r supplier now p k Hp). cbv zeta in Hl.
  unfold validate_product, required_fields. cbn [forallb].
  at_key Hl "product_name". at_key Hl "product_url". at_key Hl "price".
  rewrite andb_true_r, andb_assoc.
  by destruct (price_of _).
Qed.



End Process.

Section BatchMore.

Context `{urllib : UrlLib}.
Implicit Types (dp : DataProcessor) (now : nat → string) (w : world).

Local Open Scope nat_scope.

Lemma imap_shift {A B} (f : nat → A → B) (i : nat) (l : list A) :
  imap (λ j, f (i + S j)) l = imap (λ j, f (S i + j)) l.
Proof. apply imap_ext. intros j x _. by rewrite Nat.add_succ_r. Qed.

Lemma batch_loop_stdout dp now supplier i products acc w :
  stdout (batch_loop dp now supplier i products acc w).2
  = stdout w ++ omap id (imap (λ j, printed dp now supplier (i + j)) products)
  ∧ run_log (batch_loop dp now supplier i products acc w).2 = run_log w.
Proof.
  revert i acc w. induction products as [|r rest IH]; intros i acc w.
  { simpl. by rewrite app_nil_r. }
  cbn [batch_loop imap]. unfold printed at 1. rewrite Nat.add_0_r.
  change (imap ((λ j, printed dp now supplier (i + j)) ∘ S) rest)
    with (imap (λ j, printed dp now supplier (i + S j)) rest).
  rewrite imap_shift.
  destruct (process_product dp r supplier (now i)) as [p|e].
  - destruct (validate_product p); apply IH.
  - destruct (IH (S i) acc (print ("Error processing product "
        +:+ py_str (rget r "product_name" (PyStr "Unknown")) +:+ ": " +:+ e) w))
      as [-> ->].
    split; [|done]. cbn [omap list_omap id]. simpl. by rewrite <- app_assoc.
Qed.

Lemma batch_loop_length dp now supplier i products acc w :
  length (batch_loop dp now supplier i products acc w).1
  ≤ length acc + length products.
Proof.
  revert i acc w. induction products as [|r rest IH]; intros i acc w; simpl; [lia|].
  destruct (process_product dp r supplier (now i)) as [p|e];
    [destruct (validate_product p)|].
  - etrans; [apply IH|]. rewrite length_app. simpl. lia.
  - etrans; [apply IH|]. lia.
  - etrans; [apply IH|]. lia.
Qed.

(** X8.  The batch returns no more products than it was given records, and
    prints one line for each record whose processing raises and nothing
    else; it hands nothing to the logger.  With duplicate removal on, no
    two returned products share a key. *)
Theorem batch_output_bounded dp now (products : list raw_record)
    (supplier : string) w :
  let out := (process_products_batch dp now products supplier w).1 in
  let w' := (process_products_batch dp now products supplier w).2 in
  length out ≤ length products
  ∧ stdout w' = stdout w ++ omap id (imap (printed dp now supplier) products)
  ∧ run_log w' = run_log w
  ∧ (cfg_remove_duplicates dp = true → NoDup (product_key <$> out)).
Proof.
  intros out w'. subst out w'. unfold process_products_batch.
  pose proof (batch_loop_length dp now supplier 0 products [] w) as Hlen.
  pose proof (batch_loop_stdout dp now supplier 0 products [] w) as [Hout Hlog].
  destruct (batch_loop dp now supplier 0 products [] w) as [l wl].
  simpl in Hlen, Hout, Hlog.
  destruct (cfg_remove_duplicates dp); simpl; repeat split; try done.
  - etrans; [|exact Hlen]. apply sublist_length, dedupe_loop_sublist.
  - intros _. apply dedupe_loop_NoDup.
Qed.

Lemma structure_loop_products dp now supplier_name i raw_products acc w :
  (structure_loop dp now supplier_name i raw_products acc w).1
  = acc ++ omap id (imap (λ j, structured dp now supplier_name (i + j)) raw_products).
Proof.
  revert i acc w. induction raw_products as [|r rest IH]; intros i acc w.
  { simpl. by rewrite app_nil_r. }
  cbn [structure_loop imap]. unfold structured at 1. rewrite Nat.add_0_r.
  change (imap ((λ j, structured dp now supplier_name (i + j)) ∘ S) rest)
    with (imap (λ j, structured dp now supplier_name (i + S j)) rest).
  rewrite imap_shift.
  destruct (structure_product dp r supplier_name (now i)) as [s|e].
  - rewrite IH. cbn [omap list_omap id]. simpl. by rewrite <- app_assoc.
  - cbv zeta. by rewrite IH.
Qed.

Lemma structured_key dp now supplier_name (i : nat) (r : raw_record)
    (s : structured_product) :
  structured dp now supplier_name i r = Some s → product_key s = "_".
Proof.
  unfold structured, structure_product.
  destruct (process_product dp r supplier_name (now i)) as [p|]; [|done].
  destruct (pget p "id") as [id|]; [|done]. intros [= <-].
  unfold product_key, dict_get, structured_dict. cbn [s_fields].
  by rewrite !lookup_insert_ne, !lookup_singleton_ne.
Qed.

Lemma dedupe_loop_seen {A} `{PyDict A} (xs : list A) (seen : gset string) :
  (∀ x, x ∈ xs → product_key x ∈ seen) → dedupe_loop xs seen [] = [].
Proof.
  induction xs as [|x xs IH]; intros Hall; [done|].
  rewrite dedupe_loop_cons, bool_decide_eq_true_2 by apply Hall, list_elem_of_here.
  apply IH. intros y Hy. by apply Hall, list_elem_of_further.
Qed.

Lemma remove_duplicates_one_key {A} `{PyDict A} (xs : list A) (k : string) :
  (∀ x, x ∈ xs → product_key x = k) → remove_duplicates xs = take 1 xs.
Proof.
  unfold remove_duplicates. destruct xs as [|x xs]; intros Hall; [done|].
  rewrite dedupe_loop_cons, bool_decide_eq_false_2 by apply not_elem_of_empty.
  simpl. f_equal. rewrite take_0. apply dedupe_loop_seen.
  intros y Hy. rewrite (Hall y), (Hall x);
    [|apply list_elem_of_here | by apply list_elem_of_further].
  apply elem_of_union. left. by apply elem_of_singleton.
Qed.

Lemma scraper_output_first dp now (raw_products : list raw_record)
    (supplier_name : string) w :
  (_process_scraper_output dp now raw_products supplier_name w).1
  = take 1 (omap id (imap (structured dp now supplier_name) raw_products)).
Proof.
  unfold _process_scraper_output.
  destruct raw_products as [|r rest]; [done|].
  pose proof (structure_loop_products dp now supplier_name 0 (r :: rest) [] w)
    as Hl.
  destruct (structure_loop dp now supplier_name 0 (r :: rest) [] w) as [l wl].
  change (l = omap id (imap (structured dp now supplier_name) (r :: rest))) in Hl.
  cbn [fst]. rewrite Hl.
  apply (remove_duplicates_one_key _ "_").
  intros s Hs. apply list_elem_of_omap in Hs as (o & Ho & Hs). simpl in Hs.
  subst o.
  apply list_elem_of_lookup in Ho as [j Hj].
  rewrite list_lookup_imap in Hj.
  destruct ((r :: rest) !! j) as [r'|]; [|done]. simpl in Hj.
  injection Hj as Hj. by eapply structured_key.
Qed.

(** X9.  The orchestrator keeps at most one product per supplier: the first
    record whose processing does not raise.  Every later one is taken
    for its duplicate, because a structured product has neither of the
    two entries the deduplication reads. *)
Theorem scraper_output_at_most_one dp now (raw_products : list raw_record)
    (supplier_name : string) w :
  let out := (_process_scraper_output dp now raw_products supplier_name w).1 in
  out = take 1 (omap id (imap (structured dp now supplier_name) raw_products))
  ∧ length out ≤ 1.
Proof.
  intros out. subst out. rewrite scraper_output_first. split; [done|].
  rewrite length_take. lia.
Qed.

(** X10.  The orchestrator's error list grows by one entry for each record
    whose processing raises, in the order of the records, and by nothing
    else: a record that only lacks a required field is not reported.
    The entry names the product by the record's [name] entry. *)
Theorem scraper_output_errors dp now (raw_products : list raw_record)
    (supplier_name : string) w :
  let w' := (_process_scraper_output dp now raw_products supplier_name w).2 in
  run_errors w'
  = run_errors w
    ++ omap id (imap (λ j r, match process_product dp r supplier_name (now j) with
                             | Ok _ => None
                             | Raise e =>
                                 Some (ErrorEntry supplier_name
                                         (Some (rget r "name" (PyStr "Unknown"))) e)
                             end) raw_products).
Proof.
  intros w'. subst w'. unfold _process_scraper_output.
  destruct raw_products as [|r rest]; [simpl; by rewrite app_nil_r|].
  pose proof (structure_loop_errors dp now supplier_name 0 (r :: rest) [] w) as He.
  destruct (structure_loop dp now supplier_name 0 (r :: rest) [] w) as [l wl].
  change (run_errors wl
          = run_errors w
            ++ omap id (imap (reported dp now supplier_name) (r :: rest))) in He.
  cbn [snd log_success log run_errors].
  rewrite He. f_equal. f_equal. apply imap_ext. intros j x _.
  unfold reported.
  destruct (structure_product dp x supplier_name (now j)) as [s|e] eqn:Hx.
  - destruct (process_product dp x supplier_name (now j)) as [p|e'] eqn:Hp; [done|].
    apply structure_product_raises in Hp. congruence.
  - apply structure_product_raises in Hx. by rewrite Hx.
Qed.

End BatchMore.

Section Api.

Local Open Scope Z_scope.

Lemma py_slice_nonneg {A} (l : list A) (offset limit : Z) :
  0 ≤ offset → 0 ≤ limit →
  py_slice l offset (offset + limit)
  = take (Z.to_nat limit) (drop (Z.to_nat offset) l).
Proof.
  intros Ho Hl. unfold py_slice, slice_bound.
  rewrite !(proj2 (Z.ltb_ge _ 0)) by lia.
  destruct (decide (offset ≤ Z.of_nat (length l))) as [Hon|Hon].
  - rewrite (Z.min_l offset) by done.
    destruct (decide (offset + limit ≤ Z.of_nat (length l))) as [Hln|Hln].
    + rewrite Z.min_l by done. f_equal. lia.
    + rewrite Z.min_r by lia.
      rewrite !take_ge; [done| |]; rewrite length_drop; lia.
  - rewrite !Z.min_r by lia. rewrite Z.sub_diag.
    rewrite (drop_ge l (Z.to_nat offset)) by lia. by rewrite !take_nil.
Qed.

Lemma filter_eq_comm (k1 v1 k2 v2 : string) (products : list product) :
  filter_eq k1 v1 (filter_eq k2 v2 products)
  = filter_eq k2 v2 (filter_eq k1 v1 products).
Proof.
  unfold filter_eq. induction products as [|p ps IH]; [done|]. simpl.
  destruct (bool_decide (pget p k2 = Some (PyStr v2))) eqn:E2;
    destruct (bool_decide (pget p k1 = Some (PyStr v1))) eqn:E1;
    simpl; rewrite ?E1, ?E2, IH; done.
Qed.

Lemma filter_if_comm (k1 k2 : string) (v1 v2 : option string) (products : list product) :
  filter_if k1 v1 (filter_if k2 v2 products)
  = filter_if k2 v2 (filter_if k1 v1 products).
Proof.
  destruct v1 as [s1|], v2 as [s2|]; simpl; try done.
  destruct (nonempty s1), (nonempty s2); try done. apply filter_eq_comm.
Qed.

Lemma filter_if_elem (key : string) (value : option string)
    (products : list product) (p : product) :
  p ∈ filter_if key value products
  ↔ p ∈ products
    ∧ ∀ v, value = Some v → nonempty v = true → pget p key = Some (PyStr v).
Proof.
  destruct value as [v|]; simpl; [destruct (nonempty v) eqn:Hv|].
  - unfold filter_eq. rewrite list_elem_of_In, filter_In, bool_decide_eq_true.
    rewrite <- list_elem_of_In. split.
    + intros [? ?]. split; [done|]. by intros ? [= <-].
    + intros [? H]. split; [done|]. by apply H.
  - split; [|tauto]. intros ?. split; [done|]. intros ? [= <-]. congruence.
  - split; [|tauto]. intros ?. by split.
Qed.

Lemma List_filter_sublist {A} (f : A → bool) (l : list A) :
  List.filter f l `sublist_of` l.
Proof.
  induction l as [|x l IH]; simpl; [done|]. destruct (f x); by constructor.
Qed.

Lemma filter_if_sublist (key : string) (value : option string)
    (products : list product) :
  filter_if key value products `sublist_of` products.
Proof.
  destruct value as [v|]; simpl; [destruct (nonempty v)|]; try done.
  apply List_filter_sublist.
Qed.

(** X11.  [get_materials] answers with products of the data set, in their
    order, and each of them passes the filters that were given and are
    not empty; from offset 0 with a limit that covers the data set it
    answers with every product that passes them. *)
Theorem get_materials_filtered (products : list product) (supplier category : option string)
    (limit offset : Z) (p : product) :
  get_materials products supplier category limit offset `sublist_of` products
  ∧ (p ∈ get_materials products supplier category limit offset →
     (∀ s, supplier = Some s → nonempty s = true →
           pget p "supplier" = Some (PyStr s))
     ∧ (∀ c, category = Some c → nonempty c = true →
             pget p "category" = Some (PyStr c)))
  ∧ (Z.of_nat (length products) ≤ limit →
     p ∈ get_materials products supplier category limit 0
     ↔ p ∈ products
       ∧ (∀ s, supplier = Some s → nonempty s = true →
               pget p "supplier" = Some (PyStr s))
       ∧ (∀ c, category = Some c → nonempty c = true →
               pget p "category" = Some (PyStr c))).
Proof.
  unfold get_materials.
  set (l := filter_if "category" category (filter_if "supplier" supplier products)).
  assert (Hsub : l `sublist_of` products)
    by (etrans; apply filter_if_sublist).
  assert (Hslice : ∀ a b, py_slice l a b `sublist_of` l).
  { intros a b. unfold py_slice. etrans; [apply sublist_take | apply sublist_drop]. }
  assert (Hl : p ∈ l
               ↔ p ∈ products
                 ∧ (∀ s, supplier = Some s → nonempty s = true →
                         pget p "supplier" = Some (PyStr s))
                 ∧ (∀ c, category = Some c → nonempty c = true →
                         pget p "category" = Some (PyStr c))).
  { unfold l. rewrite !filter_if_elem. tauto. }
  split; [|split].
  - etrans; [apply Hslice | exact Hsub].
  - intros Hp. eapply elem_of_sublist in Hp; [|apply Hslice].
    apply Hl in Hp. tauto.
  - intros Hlim. rewrite <- Hl. rewrite py_slice_nonneg by lia.
    rewrite drop_0, take_ge; [done|].
    apply sublist_length in Hsub. lia.
Qed.

(** X12.  With an offset and a limit that are not negative, [get_materials]
    returns at most [limit] products, and two consecutive pages make up
    the page of their joint size. *)
Theorem get_materials_pages (products : list product) (supplier category : option string)
    (limit limit' offset : Z) :
  0 ≤ offset → 0 ≤ limit → 0 ≤ limit' →
  Z.of_nat (length (get_materials products supplier category limit offset)) ≤ limit
  ∧ get_materials products supplier category limit offset
    ++ get_materials products supplier category limit' (offset + limit)
    = get_materials products supplier category (limit + limit') offset.
Proof.
  intros Ho Hl Hl'. unfold get_materials.
  set (l := filter_if "category" category (filter_if "supplier" supplier products)).
  rewrite !py_slice_nonneg by lia. split.
  - rewrite length_take. lia.
  - rewrite !Z2Nat.inj_add by lia.
    by rewrite <- drop_drop, take_take_drop.
Qed.

(** X13.  The limit is not checked: a negative one counts from the end of the
    filtered list, so that from offset 0 the limit [-n] answers with all
    the matches but the last [n]. *)
Theorem get_materials_negative_limit (products : list product)
    (supplier category : option string) (limit : Z) :
  limit < 0 →
  let matches := get_materials products supplier category
                   (Z.of_nat (length products)) 0 in
  get_materials products supplier category limit 0
  = take (length matches - Z.to_nat (- limit)) matches.
Proof.
  intros Hneg matches. subst matches. unfold get_materials.
  set (l := filter_if "category" category (filter_if "supplier" supplier products)).
  assert (Hsub : l `sublist_of` products)
    by (etrans; apply filter_if_sublist).
  apply sublist_length in Hsub.
  rewrite (py_slice_nonneg l 0 (Z.of_nat (length products))) by lia.
  rewrite drop_0, (take_ge l) by lia.
  unfold py_slice, slice_bound. rewrite Z.add_0_l.
  rewrite (proj2 (Z.ltb_lt limit 0)) by done.
  rewrite Z.min_l by lia. simpl (Z.to_nat 0). rewrite drop_0.
  change (0 <? 0) with false. cbv iota. f_equal. lia.
Qed.

(** X14.  For a category that is not empty, the category endpoint answers
    with the page [get_materials] gives for that category, and with a
    404 where that page is empty. *)
Theorem category_endpoint_agrees (products : list product) (category : string)
    (supplier : option string) (limit offset : Z) :
  nonempty category = true →
  get_materials_by_category products category supplier limit offset
  = match get_materials products supplier (Some category) limit offset with
    | [] => HTTPException 404 ("No products found for category: " +:+ category)
    | page => Return page
    end.
Proof.
  intros Hc. unfold get_materials_by_category, get_materials.
  change (match supplier with
          | Some s => if nonempty s
                      then filter_eq "supplier" s (filter_eq "category" category products)
                      else filter_eq "category" category products
          | None => filter_eq "category" category products
          end)
    with (filter_if "supplier" supplier (filter_eq "category" category products)).
  replace (filter_eq "category" category products)
    with (filter_if "category" (Some category) products)
    by (simpl; by rewrite Hc).
  rewrite (filter_if_comm "supplier" "category"). cbv zeta.
  by destruct (py_slice _ _ _).
Qed.

End Api.

Section Search.

Local Open Scope Z_scope.











End Search.

Section Run.

Context `{urllib : UrlLib} `{scrapers : Scrapers}.
Implicit Types (dp : DataProcessor) (st : run_state).

Local Open Scope nat_scope.

Lemma structured_category dp (now : nat → string) supplier_name (i : nat)
    (r : raw_record) (s : structured_product) :
  structured dp now supplier_name i r = Some s →
  is_Some (dict_get s "category").
Proof.
  unfold structured, structure_product.
  destruct (process_product dp r supplier_name (now i)) as [p|]; [|done].
  destruct (pget p "id") as [id|]; [|done]. intros [= <-].
  unfold dict_get, structured_dict. cbn [s_fields].
  rewrite lookup_insert_ne by done. rewrite lookup_insert_ne by done.
  rewrite lookup_insert_eq. by eexists.
Qed.

Lemma scraper_output_elem dp (now : nat → string) raw_products supplier_name w s :
  s ∈ (_process_scraper_output dp now raw_products supplier_name w).1 →
  product_key s = "_" ∧ is_Some (dict_get s "category").
Proof.
  rewrite scraper_output_first. intros Hs.
  eapply elem_of_sublist in Hs; [|apply sublist_take].
  apply list_elem_of_omap in Hs as (o & Ho & Hs). simpl in Hs. subst o.
  apply list_elem_of_lookup in Ho as [j Hj].
  rewrite list_lookup_imap in Hj.
  destruct (raw_products !! j) as [r'|]; [|done]. simpl in Hj.
  injection Hj as Hj. split.
  - by eapply structured_key.
  - by eapply structured_category.
Qed.

Lemma categories_of_ok {A} `{PyDict A} (xs : list A) :
  (∀ x, x ∈ xs → is_Some (dict_get x "category")) →
  categories_of xs = Ok (omap (λ x, dict_get x "category") xs).
Proof.
  induction xs as [|x xs IH]; intros Hall; [done|]. simpl.
  destruct (Hall x) as [c Hc]; [by constructor|]. rewrite Hc.
  rewrite IH; [done|]. intros y Hy. apply Hall. by constructor.
Qed.

Lemma count_categories_ok {A} `{PyDict A} (xs : list A) (counts : gmap pyval nat) :
  (∀ x, x ∈ xs → is_Some (dict_get x "category")) →
  (count_categories xs counts).2 = None.
Proof.
  revert counts. induction xs as [|x xs IH]; intros counts Hall; [done|]. simpl.
  destruct (Hall x) as [c Hc]; [by constructor|]. rewrite Hc.
  apply IH. intros y Hy. apply Hall. by constructor.
Qed.

(** What [scrape_supplier] makes of the three ways its scraper can go. *)
Lemma scrape_supplier_cases dp (now : nat → string) supplier_name categories st :
  let w0 := log_info ("Starting scrape for " +:+ supplier_name) (rs_world st) in
  let failed e w :=
    ([], {| rs_world := record_error (ErrorEntry supplier_name None e)
                          (log_error e ("scraping " +:+ supplier_name) w);
            stats_suppliers := stats_suppliers st;
            stats_categories := stats_categories st |}) in
  scrape_supplier dp now supplier_name categories st
  = match _get_scraper_instance supplier_name with
    | Raise e => failed e w0
    | Ok scraper =>
        match run_scraper scraper categories with
        | Raise e => failed e w0
        | Ok all_products =>
            let out := _process_scraper_output dp now all_products supplier_name w0 in
            (out.1,
             {| rs_world := out.2;
                stats_suppliers :=
                  <[supplier_name :=
                      {| products_scraped := length out.1;
                         supplier_categories :=
                           list_to_set (omap (λ s, dict_get s "category") out.1) |}]>
                    (stats_suppliers st);
                stats_categories := stats_categories st |})
        end
    end.
Proof.
  intros w0 failed. unfold scrape_supplier.
  destruct (_get_scraper_instance supplier_name) as [scraper|e]; [|done].
  destruct (run_scraper scraper categories) as [all_products|e]; [|done].
  cbn [in_world rs_world stats_suppliers stats_categories]. fold w0.
  pose proof (scraper_output_elem dp now all_products supplier_name w0) as Helem.
  destruct (_process_scraper_output dp now all_products supplier_name w0)
    as [out w] eqn:Hout.
  cbn [fst snd] in *.
  rewrite categories_of_ok; [done|]. intros s Hs. by apply Helem.
Qed.

Lemma scrape_supplier_elem dp (now : nat → string) supplier_name categories st s :
  s ∈ (scrape_supplier dp now supplier_name categories st).1 →
  product_key s = "_" ∧ is_Some (dict_get s "category").
Proof.
  rewrite scrape_supplier_cases. cbv zeta.
  destruct (_get_scraper_instance supplier_name) as [scraper|e];
    [|by intros ?%elem_of_nil].
  destruct (run_scraper scraper categories) as [all_products|e];
    [|by intros ?%elem_of_nil].
  cbn [fst]. apply scraper_output_elem.
Qed.

Lemma scrape_supplier_length dp (now : nat → string) supplier_name categories st :
  length (scrape_supplier dp now supplier_name categories st).1 ≤ 1.
Proof.
  rewrite scrape_supplier_cases. cbv zeta.
  destruct (_get_scraper_instance supplier_name) as [scraper|e]; [|simpl; lia].
  destruct (run_scraper scraper categories) as [all_products|e]; [|simpl; lia].
  cbn [fst]. rewrite scraper_output_first, length_take. lia.
Qed.

Lemma scrape_supplier_categories dp (now : nat → string) supplier_name categories st :
  stats_categories (scrape_supplier dp now supplier_name categories st).2
  = stats_categories st.
Proof.
  rewrite scrape_supplier_cases. cbv zeta.
  destruct (_get_scraper_instance supplier_name) as [scraper|e]; [|done].
  by destruct (run_scraper scraper categories) as [all_products|e].
Qed.

(** X18.  [scrape_supplier] returns at most one product and leaves the
    category counts alone.  Either the supplier names one of the three
    scrapers, in any case, and its run returns: then the result is the
    first record that can be processed, and the supplier's statistics
    are replaced by the count and the categories of the result.  Or the
    supplier is unknown or the scraper raises: then the result is empty,
    the statistics of the suppliers stay as they were, and one entry
    without a product is added to the error list. *)
Theorem scrape_supplier_outcome dp (now : nat → string) (supplier_name : string)
    (categories : list string) st :
  let out := (scrape_supplier dp now supplier_name categories st).1 in
  let st' := (scrape_supplier dp now supplier_name categories st).2 in
  length out ≤ 1
  ∧ stats_categories st' = stats_categories st
  ∧ ((∃ raw_products,
        Str.lower supplier_name ∈ scraper_classes
        ∧ run_scraper (Str.lower supplier_name) categories = Ok raw_products
        ∧ out = take 1 (omap id (imap (structured dp now supplier_name) raw_products))
        ∧ stats_suppliers st'
          = <[supplier_name :=
                {| products_scraped := length out;
                   supplier_categories :=
                     list_to_set (omap (λ s, dict_get s "category") out) |}]>
              (stats_suppliers st))
     ∨ (∃ e,
          ((Str.lower supplier_name ∉ scraper_classes)
           ∧ e = ("Unknown supplier: " +:+ supplier_name)
           ∨ Str.lower supplier_name ∈ scraper_classes
             ∧ run_scraper (Str.lower supplier_name) categories = Raise e)
          ∧ out = []
          ∧ stats_suppliers st' = stats_suppliers st
          ∧ run_errors (rs_world st')
            = run_errors (rs_world st) ++ [ErrorEntry supplier_name None e])).
Proof.
  intros out st'. split; [apply scrape_supplier_length|].
  subst out st'. rewrite scrape_supplier_cases. cbv zeta.
  unfold _get_scraper_instance.
  destruct (bool_decide (Str.lower supplier_name ∈ scraper_classes)) eqn:Hin.
  - apply bool_decide_eq_true in Hin.
    destruct (run_scraper (Str.lower supplier_name) categories)
      as [raw_products|e] eqn:Hrun.
    + split; [done|]. left. exists raw_products. cbn [fst snd stats_suppliers].
      by rewrite scraper_output_first.
    + split; [done|]. right. exists e. split; [by right|]. done.
  - apply bool_decide_eq_false in Hin. split; [done|]. right.
    eexists. split; [by left|]. done.
Qed.

Lemma run_loop_elem dp (now : nat → nat → string) categories k suppliers
    (acc : list structured_product) data st s :
  (∀ x, x ∈ acc → product_key x = "_") →
  s ∈ (run_loop dp now categories k suppliers acc data st).1.1 →
  product_key s = "_".
Proof.
  revert k acc data st. induction suppliers as [|supplier rest IH];
    intros k acc data st Hacc; [apply Hacc|].
  cbn [run_loop].
  pose proof (λ x, scrape_supplier_elem dp (now k) supplier categories st x) as He.
  destruct (scrape_supplier dp (now k) supplier categories st) as [products st1].
  cbn [fst] in He.
  destruct (count_categories products (stats_categories st1)) as [counted raised].
  apply IH. intros x [Hx|Hx]%elem_of_app; [by apply Hacc|by apply He].
Qed.

Lemma run_loop_data dp (now : nat → nat → string) categories k suppliers
    (acc : list structured_product) (data : gmap string (list structured_product))
    st supplier products :
  (∀ s ps, data !! s = Some ps → length ps ≤ 1) →
  (run_loop dp now categories k suppliers acc data st).1.2 !! supplier = Some products →
  length products ≤ 1.
Proof.
  revert k acc data st. induction suppliers as [|s rest IH];
    intros k acc data st Hdata; [apply Hdata|].
  cbn [run_loop].
  pose proof (scrape_supplier_length dp (now k) s categories st) as Hl.
  destruct (scrape_supplier dp (now k) s categories st) as [ps st1].
  cbn [fst] in Hl.
  destruct (count_categories ps (stats_categories st1)) as [counted raised].
  apply IH. intros s' ps' Hs'.
  destruct (decide (s = s')) as [->|Hne].
  - rewrite lookup_insert_eq in Hs'. by injection Hs' as <-.
  - rewrite lookup_insert_ne in Hs' by done. by eapply Hdata.
Qed.

(** X19.  However many suppliers and records there are, [run] returns at most
    one product: the first of those its loop gathered.  Every structured
    product has the same deduplication key, so the final
    [remove_duplicates] keeps the first one only; and each list of
    [all_data_by_supplier] holds at most one product. *)
Theorem run_returns_at_most_one dp (now : nat → nat → string)
    (suppliers categories : list string) st :
  let gathered := run_loop dp now categories 0 suppliers [] ∅ st in
  run_products dp now suppliers categories st = take 1 gathered.1.1
  ∧ length (run_products dp now suppliers categories st) ≤ 1
  ∧ ∀ supplier products,
      gathered.1.2 !! supplier = Some products → length products ≤ 1.
Proof.
  intros gathered.
  assert (run_products dp now suppliers categories st = take 1 gathered.1.1) as Hone.
  { unfold run_products. fold gathered.
    apply (remove_duplicates_one_key _ "_"). intros x Hx.
    eapply run_loop_elem; [|exact Hx]. by intros ? ?%elem_of_nil. }
  split; [done|]. split.
  - rewrite Hone, length_take. lia.
  - intros supplier products. apply run_loop_data. intros s ps.
    by rewrite lookup_empty.
Qed.

Lemma count_total_insert (counts : gmap pyval nat) (c : pyval) (n : nat) :
  count_total (<[c := n]> counts) + default 0 (counts !! c) = count_total counts + n.
Proof.
  unfold count_total.
  rewrite <- (insert_delete_eq counts c n).
  rewrite map_fold_insert_L; [|intros; lia|apply lookup_delete_eq].
  destruct (counts !! c) as [m|] eqn:Hc; simpl.
  - rewrite <- (insert_id counts c m Hc) at 2.
    rewrite <- (insert_delete_eq counts c m).
    rewrite map_fold_insert_L; [lia|intros; lia|apply lookup_delete_eq].
  - rewrite delete_id by done. lia.
Qed.

Lemma count_categories_total {A} `{PyDict A} (xs : list A) (counts : gmap pyval nat) :
  (∀ x, x ∈ xs → is_Some (dict_get x "category")) →
  count_total (count_categories xs counts).1 = count_total counts + length xs.
Proof.
  revert counts. induction xs as [|x xs IH]; intros counts Hall; [simpl; lia|].
  cbn [count_categories length].
  destruct (Hall x) as [c Hc]; [by constructor|]. rewrite Hc.
  rewrite IH by (intros y Hy; apply Hall; by constructor).
  destruct (bool_decide (c ∈ dom counts)) eqn:Hd.
  - pose proof (count_total_insert counts c (S (default 0 (counts !! c)))). lia.
  - apply bool_decide_eq_false, not_elem_of_dom in Hd.
    rewrite lookup_insert_eq. simpl. rewrite insert_insert_eq.
    pose proof (count_total_insert counts c 1) as Ht. rewrite Hd in Ht. simpl in Ht.
    lia.
Qed.

Lemma run_loop_counts dp (now : nat → nat → string) categories k suppliers
    (acc : list structured_product) data st :
  count_total (stats_categories (run_loop dp now categories k suppliers acc data st).2)
  + length acc
  = count_total (stats_categories st)
    + length (run_loop dp now categories k suppliers acc data st).1.1.
Proof.
  revert k acc data st. induction suppliers as [|supplier rest IH];
    intros k acc data st; [simpl; lia|].
  cbn [run_loop].
  pose proof (λ x, scrape_supplier_elem dp (now k) supplier categories st x) as He.
  pose proof (scrape_supplier_categories dp (now k) supplier categories st) as Hcat.
  destruct (scrape_supplier dp (now k) supplier categories st) as [products st1].
  cbn [fst snd] in He, Hcat.
  pose proof (count_categories_total products (stats_categories st1)
                (λ x Hx, proj2 (He x Hx))) as Hc.
  pose proof (count_categories_ok products (stats_categories st1)
                (λ x Hx, proj2 (He x Hx))) as Hr.
  destruct (count_categories products (stats_categories st1)) as [counted raised].
  cbn [fst snd] in Hc, Hr. subst raised.
  specialize (IH (S k) (acc ++ products) (<[supplier := products]> data)
                {| rs_world := rs_world st1; stats_suppliers := stats_suppliers st1;
                   stats_categories := counted |}).
  cbn [stats_categories] in IH. rewrite length_app in IH. rewrite Hcat in Hc. lia.
Qed.

Lemma run_loop_length dp (now : nat → nat → string) categories k suppliers
    (acc : list structured_product) data st :
  length (run_loop dp now categories k suppliers acc data st).1.1
  ≤ length acc + length suppliers.
Proof.
  revert k acc data st. induction suppliers as [|supplier rest IH];
    intros k acc data st; [simpl; lia|].
  cbn [run_loop].
  pose proof (scrape_supplier_length dp (now k) supplier categories st) as Hl.
  destruct (scrape_supplier dp (now k) supplier categories st) as [products st1].
  cbn [fst] in Hl.
  destruct (count_categories products (stats_categories st1)) as [counted raised].
  etrans; [apply IH|]. rewrite length_app. simpl. lia.
Qed.

(** X20.  The category counts of a run add up to the number of products its
    loop gathered, one for each supplier that yields a product, which
    is the count before the final [remove_duplicates] and at most the
    number of suppliers. *)
Theorem run_category_counts dp (now : nat → nat → string)
    (suppliers categories : list string) st :
  let gathered := run_loop dp now categories 0 suppliers [] ∅ st in
  count_total (stats_categories gathered.2)
  = count_total (stats_categories st) + length gathered.1.1
  ∧ length gathered.1.1 ≤ length suppliers.
Proof.
  intros gathered. split.
  - pose proof (run_loop_counts dp now categories 0 suppliers [] ∅ st) as Hc.
    fold gathered in Hc. simpl in Hc. lia.
  - apply (run_loop_length dp now categories 0 suppliers [] ∅ st).
Qed.

End Run.

Section SessionFiles.

Context {P : Type} `{json : JsonLib P}.

Local Open Scope nat_scope.


Lemma run_rewrite (path : string) (chunks : list string) (fs : filesystem) :
  run_ops (Truncate path :: (FileWrite path <$> chunks)) fs !! path
  = Some (Str.concat chunks).
Proof.
  change (run_ops (FileWrite path <$> chunks) (apply_op fs (Truncate path)) !! path
          = Some (Str.concat chunks)).
  by rewrite (run_writes path "" chunks) by apply lookup_insert_eq.
Qed.




Lemma after_batches_products (batches : list (list P * string)) (data : session_data P) :
  sd_products (foldl after_batch data batches)
  = sd_products data ++ mjoin (fst <$> batches).
Proof.
  revert data. induction batches as [|[products now] rest IH]; intros data.
  - simpl. by rewrite app_nil_r.
  - cbn [foldl fmap list_fmap mjoin list_join fst]. rewrite IH. unfold after_batch.
    destruct products as [|p ps]; cbn [fst snd]; [done|].
    cbn [extend_session sd_products]. by rewrite <- app_assoc.
Qed.

Lemma after_batches_metadata (batches : list (list P * string)) (data : session_data P)
    (key : string) :
  key ≠ "total_products" → key ≠ "last_updated" →
  sd_metadata (foldl after_batch data batches) !! key = sd_metadata data !! key.
Proof.
  intros Ht Hl. revert data.
  induction batches as [|[products now] rest IH]; intros data; [done|].
  cbn [foldl]. rewrite IH. unfold after_batch.
  destruct products as [|p ps]; cbn [fst snd]; [done|].
  cbn [extend_session sd_metadata]. by rewrite !lookup_insert_ne.
Qed.

Lemma after_batches_total (batches : list (list P * string)) (data : session_data P) :
  sd_metadata data !! "total_products"
  = Some (JNum (Z.of_nat (length (sd_products data)))) →
  sd_metadata (foldl after_batch data batches) !! "total_products"
  = Some (JNum (Z.of_nat (length (sd_products (foldl after_batch data batches))))).
Proof.
  revert data. induction batches as [|[products now] rest IH]; intros data Hd; [done|].
  cbn [foldl]. apply IH. unfold after_batch.
  destruct products as [|p ps]; cbn [fst snd]; [done|].
  cbn [extend_session sd_metadata sd_products].
  rewrite lookup_insert_ne by done. apply lookup_insert_eq.
Qed.


(** X26.  Saving the whole of a session at once, as the scrapers' final save
    does, rewrites the session's own JSON file with a document that has
    the products and every metadata entry the appends had led to, except
    that [scraped_at] is the time of the save and [last_updated] is
    gone. *)
Theorem save_session_agrees_with_appends (data_dir scraper_name id : string)
    (stamp now saved_at : string) (batches : list (list P * string)) (fs : filesystem) :
  let final := foldl after_batch (initial_session scraper_name id now) batches in
  let data := mjoin (fst <$> batches) in
  let saved := save_scraper_data_session (P := P) data_dir scraper_name data (Some id)
                 stamp saved_at in
  let document := saved_session scraper_name id saved_at data in
  saved.1 = (initialize_session_files (P := P) data_dir scraper_name (Some id)
               stamp now).1.1
  ∧ run_ops saved.2 fs !! saved.1 = Some (Str.concat (json_dump document))
  ∧ sd_products document = sd_products final
  ∧ (∀ key, key ≠ "last_updated" → key ≠ "scraped_at" →
            sd_metadata document !! key = sd_metadata final !! key)
  ∧ sd_metadata document !! "scraped_at" = Some (JStr saved_at)
  ∧ sd_metadata document !! "last_updated" = None.
Proof.
  intros final data saved document.
  assert (Hprod : sd_products final = data)
    by (unfold final; by rewrite after_batches_products).
  split; [done|]. split; [apply run_rewrite|]. split; [done|]. split; [|done].
  intros key Hl Hs. destruct (decide (key = "total_products")) as [->|Ht].
  - unfold final. rewrite after_batches_total by done. fold final. by rewrite Hprod.
  - unfold final. rewrite after_batches_metadata by done.
    unfold document, saved_session, initial_session. cbn [sd_metadata].
    destruct (decide (key = "scraper")) as [->|?]; [done|].
    rewrite !(lookup_insert_ne _ "scraper") by done.
    destruct (decide (key = "session_id")) as [->|?]; [done|].
    rewrite !(lookup_insert_ne _ "session_id") by done.
    rewrite !(lookup_insert_ne _ "scraped_at") by done.
    by rewrite !(lookup_insert_ne _ "total_products") by done.
Qed.

End SessionFiles.

Section Stats.

Local Open Scope nat_scope.













Lemma categories_step_lookup (acc : gmap pyval (list pyval)) (supplier category s : pyval) :
  let acc1 := if bool_decide (supplier ∈ dom acc) then acc
              else <[supplier := []]> acc in
  let found := default [] (acc1 !! supplier) in
  (if bool_decide (category ∈ found) then acc1
   else <[supplier := found ++ [category]]> acc1) !! s
  = if decide (s = supplier)
    then Some (let before := default [] (acc !! s) in
               if bool_decide (category ∈ before) then before
               else before ++ [category])
    else acc !! s.
Proof.
  intros acc1 found.
  assert (Hfound : found = default [] (acc !! supplier)).
  { unfold found, acc1. destruct (bool_decide (supplier ∈ dom acc)) eqn:Hd; [done|].
    apply bool_decide_eq_false, not_elem_of_dom in Hd.
    by rewrite lookup_insert_eq, Hd. }
  assert (Hacc1 : acc1 !! supplier = Some found).
  { unfold found, acc1. destruct (bool_decide (supplier ∈ dom acc)) eqn:Hd.
    - apply bool_decide_eq_true, elem_of_dom in Hd as [cs Hcs]. by rewrite Hcs.
    - by rewrite lookup_insert_eq. }
  assert (Hother : ∀ s', s' ≠ supplier → acc1 !! s' = acc !! s').
  { intros s' Hne. unfold acc1. destruct (bool_decide (supplier ∈ dom acc)); [done|].
    by rewrite lookup_insert_ne. }
  destruct (decide (s = supplier)) as [->|Hne].
  - cbv zeta. rewrite <- Hfound.
    destruct (bool_decide (category ∈ found)); [done|]. by rewrite lookup_insert_eq.
  - destruct (bool_decide (category ∈ found)); [by apply Hother|].
    rewrite lookup_insert_ne by done. by apply Hother.
Qed.

Lemma categories_loop_spec (products : list product) (acc : gmap pyval (list pyval))
    (s : pyval) :
  (∀ cs, acc !! s = Some cs → NoDup cs) →
  match categories_loop products acc !! s with
  | None =>
      acc !! s = None
      ∧ ∀ p, p ∈ products → pget_or p "supplier" (PyStr "unknown") ≠ s
  | Some cs =>
      NoDup cs
      ∧ (∀ c, c ∈ cs
              ↔ c ∈ default [] (acc !! s)
                ∨ ∃ p, p ∈ products
                       ∧ pget_or p "supplier" (PyStr "unknown") = s
                       ∧ pget_or p "category" (PyStr "unknown") = c)
      ∧ (is_Some (acc !! s)
         ∨ ∃ p, p ∈ products ∧ pget_or p "supplier" (PyStr "unknown") = s)
  end.
Proof.
  revert acc. induction products as [|p ps IH]; intros acc Hnd.
  { simpl. destruct (acc !! s) as [cs|] eqn:E.
    - split; [by apply Hnd|]. split; [|by left]. intros c. split; [by left|].
      intros [?|(? & ?%elem_of_nil & _)]; done.
    - split; [done|]. by intros ? ?%elem_of_nil. }
  cbn [categories_loop]. cbv zeta.
  set (supplier := pget_or p "supplier" (PyStr "unknown")).
  set (category := pget_or p "category" (PyStr "unknown")).
  pose proof (categories_step_lookup acc supplier category s) as Hstep.
  cbv zeta in Hstep.
  set (acc' := if bool_decide (category ∈ _) then _ else _) in *.
  specialize (IH acc').
  destruct (decide (s = supplier)) as [Hs|Hs].
  - assert (Hnd' : ∀ cs, acc' !! s = Some cs → NoDup cs).
    { intros cs. rewrite Hstep. intros [= <-].
      assert (NoDup (default [] (acc !! s))) as Hb.
      { destruct (acc !! s) as [b|] eqn:E; [by apply Hnd|constructor]. }
      destruct (bool_decide (category ∈ default [] (acc !! s))) eqn:Hc; [done|].
      apply bool_decide_eq_false in Hc. apply NoDup_app. split; [done|].
      split; [|apply NoDup_singleton].
      intros x Hx ->%list_elem_of_singleton. done. }
    specialize (IH Hnd'). rewrite Hstep in IH.
    destruct (categories_loop ps acc' !! s) as [cs|]; [|by destruct IH].
    destruct IH as (Hcs & Hmem & _). split; [done|]. split.
    + intros c. rewrite Hmem. cbn [default]. split.
      * intros [Hc|(q & Hq & Hqs & Hqc)].
        -- destruct (bool_decide (category ∈ default [] (acc !! s))); [by left|].
           apply elem_of_app in Hc as [Hc|Hc%list_elem_of_singleton]; [by left|].
           right. exists p. split; [by constructor|]. by subst.
        -- right. exists q. split; [by constructor|done].
      * intros [Hc|(q & Hq & Hqs & Hqc)].
        -- left. destruct (bool_decide (category ∈ default [] (acc !! s))); [done|].
           apply elem_of_app. by left.
        -- apply elem_of_cons in Hq as [->|Hq]; [|right; by exists q].
           left. fold category in Hqc. subst c.
           destruct (bool_decide (category ∈ default [] (acc !! s))) eqn:Hc.
           ++ by apply bool_decide_eq_true in Hc.
           ++ apply elem_of_app. right. by constructor.
    + right. exists p. split; [by constructor|done].
  - assert (Hnd' : ∀ cs, acc' !! s = Some cs → NoDup cs).
    { intros cs. rewrite Hstep. apply Hnd. }
    specialize (IH Hnd'). rewrite Hstep in IH.
    destruct (categories_loop ps acc' !! s) as [cs|].
    + destruct IH as (Hcs & Hmem & Hsome). split; [done|]. split.
      * intros c. rewrite Hmem. split.
        -- intros [Hc|(q & Hq & Hqs & Hqc)]; [by left|].
           right. exists q. split; [by constructor|done].
        -- intros [Hc|(q & Hq & Hqs & Hqc)]; [by left|].
           apply elem_of_cons in Hq as [->|Hq]; [by destruct Hs|].
           right. by exists q.
      * destruct Hsome as [?|(q & Hq & Hqs)]; [by left|].
        right. exists q. split; [by constructor|done].
    + destruct IH as [Hnone Hall]. split; [done|].
      intros q [->|Hq]%elem_of_cons; [by intros <-|by apply Hall].
Qed.

Lemma get_categories_lookup (products : list product) (s : pyval) :
  match get_categories products !! s with
  | None => ∀ p, p ∈ products → pget_or p "supplier" (PyStr "unknown") ≠ s
  | Some cs =>
      NoDup cs
      ∧ (∃ p, p ∈ products ∧ pget_or p "supplier" (PyStr "unknown") = s)
      ∧ ∀ c, c ∈ cs
             ↔ ∃ p, p ∈ products
                    ∧ pget_or p "supplier" (PyStr "unknown") = s
                    ∧ pget_or p "category" (PyStr "unknown") = c
  end.
Proof.
  unfold get_categories.
  pose proof (categories_loop_spec products ∅ s) as H.
  rewrite lookup_empty in H. specialize (H ltac:(done)).
  destruct (categories_loop products ∅ !! s) as [cs|]; [|by destruct H].
  destruct H as (Hnd & Hmem & Hsome). split; [done|]. split.
  - by destruct Hsome as [[? ?]|?].
  - intros c. rewrite Hmem. cbn [default]. split; [|by right].
    by intros [?%elem_of_nil|?].
Qed.

(** X24.  [get_categories] lists for each supplier the categories of its
    products, each once; a supplier is a key exactly when a product has
    it, a product without a supplier or a category counting under
    ['unknown']. *)
Theorem get_categories_lists (products : list product) (s : pyval) :
  match get_categories products !! s with
  | None => ∀ p, p ∈ products → pget_or p "supplier" (PyStr "unknown") ≠ s
  | Some cs =>
      NoDup cs
      ∧ (∃ p, p ∈ products ∧ pget_or p "supplier" (PyStr "unknown") = s)
      ∧ ∀ c, c ∈ cs
             ↔ ∃ p, p ∈ products
                    ∧ pget_or p "supplier" (PyStr "unknown") = s
                    ∧ pget_or p "category" (PyStr "unknown") = c
  end.
Proof. apply get_categories_lookup. Qed.



End Stats.

(** ** Worked examples of the properties above *)


Lemma validate_processed_product_witness :
  validate_product (processed record_complete) = true.
Proof.
  rewrite (validate_processed_product (urllib := urllib_model) default_processor
             record_complete "castorama" example_now (processed record_complete)).
  - vm_compute. reflexivity.
  - vm_compute. reflexivity.
Defined.


Lemma get_materials_pages_witness :
  get_materials [paint_product; paint_product] None (Some "Peinture") 1 0
  ++ get_materials [paint_product; paint_product] None (Some "Peinture") 1 (0 + 1)
  = get_materials [paint_product; paint_product] None (Some "Peinture") (1 + 1) 0.
Proof.
  apply (get_materials_pages [paint_product; paint_product] None (Some "Peinture")
           1 1 0); lia.
Defined.

Lemma category_endpoint_agrees_witness :
  get_materials_by_category [paint_product] "Peinture" None 100 0
  = match get_materials [paint_product] None (Some "Peinture") 100 0 with
    | [] => HTTPException 404 ("No products found for category: " +:+ "Peinture")
    | page => Return page
    end.
Proof.
  apply (category_endpoint_agrees [paint_product] "Peinture" None 100 0). reflexivity.
Defined.



Lemma get_materials_negative_limit_witness :
  get_materials [paint_product; paint_product] None None (-1) 0 = [paint_product].
Proof.
  rewrite (get_materials_negative_limit [paint_product; paint_product] None None (-1)).
  - reflexivity.
  - lia.
Defined.

